(** * xtquantai: the tool-dispatch core of [src/xtquantai/server.py]

    A shallow embedding of the MCP server's request dispatcher
    ([handle_call_tool]), its lazy initialisation guard
    ([ensure_xtdc_initialized]), the market-data handlers and the panel
    controller, together with the properties the specification states
    about them.

    Conventions of the embedding:
    - a Python [str] is the list of its code points ([pystr]); string
      constants of the source are written as UTF-8 literals and decoded;
    - the module-level global [xtdc_initialized] and the history of calls
      made on the backend [xtdata] form the [World] that every handler
      threads; a raised exception keeps the state changes made before it;
    - the backend [xtdata] is a record of methods, optional where the source
      probes them with [hasattr]; a method may answer differently at every
      call (its answer is a function of the calls made so far) and may raise;
    - Python built-ins whose exact tables are not part of this repository
      ([int], [float], [str.isdigit], [json.dumps], the clock) are fields of
      the environment [Env]; [print] and [time.sleep] are not modelled. *)

From Stdlib Require Import String Ascii DecimalString.
From Stdlib Require Import ZArith NArith QArith Bool Lia List.
Import ListNotations.

Set Implicit Arguments.
Set Warnings "-register-all".
Local Open Scope string_scope.
Local Open Scope Z_scope.
Local Open Scope list_scope.

(* ================================================================== *)
(** ** Python strings *)
(* ================================================================== *)

Module PyStr.

(** One code point of a Python [str]. *)
Definition char := N.
Definition pystr := list char.

Definition byte_of (a : ascii) : N := N_of_ascii a.

Fixpoint bytes_of (s : string) : list N :=
  match s with
  | EmptyString => []
  | String a r => byte_of a :: bytes_of r
  end.

(** UTF-8 decoding of a source literal into code points. *)
Fixpoint utf8_decode (bs : list N) : pystr :=
  match bs with
  | [] => []
  | b0 :: r0 =>
      if (b0 <? 128)%N then b0 :: utf8_decode r0
      else if (b0 <? 224)%N then
        match r0 with
        | b1 :: r1 => ((b0 - 192) * 64 + (b1 - 128))%N :: utf8_decode r1
        | _ => []
        end
      else if (b0 <? 240)%N then
        match r0 with
        | b1 :: b2 :: r2 =>
            ((b0 - 224) * 4096 + (b1 - 128) * 64 + (b2 - 128))%N
              :: utf8_decode r2
        | _ => []
        end
      else
        match r0 with
        | b1 :: b2 :: b3 :: r3 =>
            ((b0 - 240) * 262144 + (b1 - 128) * 4096
             + (b2 - 128) * 64 + (b3 - 128))%N :: utf8_decode r3
        | _ => []
        end
  end.

(** A string constant of the source. *)
Definition lit (s : string) : pystr := utf8_decode (bytes_of s).
Arguments lit : simpl never.

Definition char_eqb (a b : char) : bool := N.eqb a b.

Fixpoint eqb (s t : pystr) : bool :=
  match s, t with
  | [], [] => true
  | a :: s', b :: t' => char_eqb a b && eqb s' t'
  | _, _ => false
  end.

Definition comma : char := 44%N.
Definition dot : char := 46%N.
Definition hyphen : char := 45%N.

(** [c in s] for a one-character [c]. *)
Definition contains (c : char) (s : pystr) : bool := existsb (char_eqb c) s.

(** The characters [str.strip()] removes: those for which
    [str.isspace()] holds (CPython's [_PyUnicode_IsWhitespace]). *)
Definition is_space (c : char) : bool :=
  ((9 <=? c) && (c <=? 13) || (28 <=? c) && (c <=? 32)
   || (c =? 133) || (c =? 160) || (c =? 5760)
   || (8192 <=? c) && (c <=? 8202)
   || (c =? 8232) || (c =? 8233) || (c =? 8239) || (c =? 8287)
   || (c =? 12288))%N.

Fixpoint lstrip (s : pystr) : pystr :=
  match s with
  | [] => []
  | c :: r => if is_space c then lstrip r else s
  end.

(** [s.strip()] *)
Definition strip (s : pystr) : pystr := rev (lstrip (rev (lstrip s))).

(** [s.split(sep)] for a one-character separator: never empty, keeps empty
    pieces. *)
Fixpoint split (sep : char) (s : pystr) : list pystr :=
  match s with
  | [] => [[]]
  | c :: r =>
      if char_eqb c sep then [] :: split sep r
      else match split sep r with
           | h :: t => (c :: h) :: t
           | [] => [[c]]
           end
  end.

(** [sep.join(parts)] *)
Fixpoint join (sep : pystr) (parts : list pystr) : pystr :=
  match parts with
  | [] => []
  | [p] => p
  | p :: rest => p ++ sep ++ join sep rest
  end.

(** Truth value of a string: [not s] is [negb (truthy s)]. *)
Definition truthy (s : pystr) : bool :=
  match s with [] => false | _ => true end.

(** [str(z)] for an [int]. *)
Definition of_Z (z : Z) : pystr :=
  map byte_of (list_ascii_of_string (NilZero.string_of_int (Z.to_int z))).

Definition of_nat (n : nat) : pystr := of_Z (Z.of_nat n).

(** [s.lower() == "true"].  The only characters whose lower case is one of
    t, r, u, e are those letters and their ASCII capitals. *)
Definition lower_is_true (s : pystr) : bool :=
  match s with
  | [t; r; u; e] =>
      ((t =? 116) || (t =? 84)) && ((r =? 114) || (r =? 82))
      && ((u =? 117) || (u =? 85)) && ((e =? 101) || (e =? 69))
  | _ => false
  end%N.

End PyStr.
Import PyStr.


(* ================================================================== *)
(** ** Values *)
(* ================================================================== *)

(** What [json.dumps] accepts.  A [float] is kept as the rational it
    denotes; no arithmetic is done on it. *)
Inductive Json :=
| JNull
| JBool (b : bool)
| JInt (z : Z)
| JFloat (q : Q)
| JStr (s : pystr)
| JList (l : list Json)
| JDict (d : list (pystr * Json)).

(** A value found in [arguments].  The dispatcher only observes of a value
    whether it is a [str] or a [bool], and its truth value; a float, list
    or dict is [VOther] with its truth value. *)
Inductive PyVal :=
| VNone
| VBool (b : bool)
| VInt (z : Z)
| VStr (s : pystr)
| VOther (truth : bool).

Definition val_truthy (v : PyVal) : bool :=
  match v with
  | VNone => false
  | VBool b => b
  | VInt z => negb (z =? 0)
  | VStr s => truthy s
  | VOther t => t
  end.

(** [arguments: dict | None].  A dict is a list of bindings, read by its
    first binding of a key. *)
Definition Dict (V : Type) := list (pystr * V).
Definition Arguments := option (Dict PyVal).

Fixpoint dict_get {V} (k : pystr) (d : Dict V) : option V :=
  match d with
  | [] => None
  | (k', v) :: r => if PyStr.eqb k k' then Some v else dict_get k r
  end.

(** [d[k] = v]: overwrite in place, or append a new key. *)
Fixpoint dict_set {V} (k : pystr) (v : V) (d : Dict V) : Dict V :=
  match d with
  | [] => [(k, v)]
  | (k', v') :: r =>
      if PyStr.eqb k k' then (k', v) :: r else (k', v') :: dict_set k v r
  end.

(** An indicator parameter: [int], [float] or [str]. *)
Inductive ParamVal :=
| PInt (z : Z)
| PFloat (q : Q)
| PStr (s : pystr).

(** [{indicator: {param: value}}]: a dict with the single key [ic_name]. *)
Record IndicatorConfig := {
  ic_name : pystr;
  ic_params : Dict ParamVal
}.

(** One element of [panels]: a [UIPanel] object, or the plain dict the
    source substitutes when the constructor raises. *)
Inductive Panel :=
| PanelObj (stock period : pystr) (figures : list IndicatorConfig)
| PanelDict (stock period : pystr) (figures : list IndicatorConfig).

(* ================================================================== *)
(** ** Exceptions *)
(* ================================================================== *)

(** The classes the source tells apart; all derive from [Exception]. *)
Inductive ExnClass :=
| ValueError | AttributeError | TypeError | ValidationError | OtherError.

Record exn := { exn_class : ExnClass; exn_str : pystr }.

Inductive Result (A : Type) :=
| Ok (a : A)
| Raise (e : exn).
Arguments Ok {A} a.
Arguments Raise {A} e.

Definition is_class (c : ExnClass) (e : exn) : bool :=
  match c, exn_class e with
  | ValueError, ValueError | AttributeError, AttributeError
  | TypeError, TypeError | ValidationError, ValidationError
  | OtherError, OtherError => true
  | _, _ => false
  end.

(* ================================================================== *)
(** ** The backend [xtdata] *)
(* ================================================================== *)

(** A call made on [xtdata], with the arguments the source passes.  The
    keyword arguments of [get_market_data] the source leaves out are
    [None]. *)
Inductive Call :=
| CStartXtdata
| CGetTradingDates (market : pystr)
| CGetStockListInSector (sector : pystr)
| CGetInstrumentDetail (code : pystr) (iscomplete : bool)
| CGetMarketData (fields stock_list : list pystr) (period : pystr)
    (start_time end_time : option pystr) (count : option Z)
| CPanelMethod (method : pystr) (panels : list Panel)
| CRefreshUI.

Definition History := list Call.

(** An element of the sequence [xtdata.get_trading_dates] returns. *)
Inductive DateLike :=
| DInt (z : Z)
| DBool (b : bool)
| DObj (strftime : option (Result pystr)) (str_ : pystr).
(** [DObj f s]: any object that is not an [int]; [f] is what
    [date.strftime("%Y-%m-%d")] does when the attribute exists, [s] is
    [str(date)]. *)

(** What [xtdata.get_stock_list_in_sector] returns: a sequence, which may
    or may not be a [list]. *)
Record StockSeq := { is_list : bool; items : list pystr }.

(** A value of the dict [xtdata.get_instrument_detail] returns: a scalar
    ([str], [int], [float], [bool], [None]) or any other object, of which
    only [str(value)] is used. *)
Inductive DetailVal :=
| DScalar (j : Json)
| DObject (str_ : pystr).

(** [{code: {field: values}}] as [xtdata.get_market_data] returns it. *)
Definition MarketData := Dict (Dict (list Json)).

(** The methods of [xtdata].  [start_xtdata], [refresh_ui] and the
    panel-control methods are looked up with [hasattr] and may be missing;
    the others are called outright (a missing one raises
    [AttributeError]).  [get_trading_dates_] and [get_instrument_detail_]
    are [xtdata.get_trading_dates] and [xtdata.get_instrument_detail]. *)
Record Backend := {
  start_xtdata : option (History -> Result unit);
  get_trading_dates_ : History -> pystr -> Result (option (list DateLike));
  get_stock_list_in_sector :
    History -> pystr -> Result (option StockSeq);
  get_instrument_detail_ :
    History -> pystr -> bool -> Result (option (Dict DetailVal));
  get_market_data :
    History -> list pystr -> list pystr -> pystr ->
    option pystr -> option pystr -> option Z -> Result (option MarketData);
  (** [getattr(xtdata, name)] for the panel-control names; the answer of a
      call is [str(result)]. *)
  panel_method : pystr -> option (History -> list Panel -> Result pystr);
  refresh_ui : option (History -> Result unit);
  (** the constructor [UIPanel(stock, period, figures=...)]: on success
      [(str(type(panel)), str(panel))]; the two [str] calls on a panel
      that was built are taken to return. *)
  UIPanel : pystr -> pystr -> list IndicatorConfig -> Result (pystr * pystr)
}.

(** Everything outside the module the handlers depend on. *)
Record Env := {
  xtdata : option Backend;
  (** [int(s)] for a [str] *)
  py_int : pystr -> Result Z;
  (** [float(s)] for a [str] *)
  py_float : pystr -> Result Q;
  (** [s.isdigit()] *)
  py_isdigit : pystr -> bool;
  (** [json.dumps(v, ensure_ascii=False, indent=2)] *)
  json_dumps : Json -> pystr;
  (** [str(indicator_config)] *)
  str_config : IndicatorConfig -> pystr;
  (** the entries of [env_info] read from [sys], [os] and [dir(xtdata)] *)
  sys_info : Dict Json;
  (** [end_time - start_time] around a backend call made at a history *)
  time_taken : History -> Q;
  (** [traceback.format_exc()] *)
  format_exc : exn -> pystr
}.

(* ================================================================== *)
(** ** State and control *)
(* ================================================================== *)

Record World := {
  xtdc_initialized : bool;
  calls : History
}.

(** Module load: [xtdc_initialized = False], nothing called yet. *)
Definition initial_world : World :=
  {| xtdc_initialized := false; calls := [] |}.

(** A computation may change the world and then return or raise. *)
Definition M (A : Type) := World -> Result A * World.

Definition ret {A} (a : A) : M A := fun w => (Ok a, w).
Definition raise {A} (e : exn) : M A := fun w => (Raise e, w).

Definition bind {A B} (m : M A) (k : A -> M B) : M B :=
  fun w =>
    match m w with
    | (Ok a, w') => k a w'
    | (Raise e, w') => (Raise e, w')
    end.

(** [try: body  except Exception as e: handler e] *)
Definition try_except {A} (body : M A) (handler : exn -> M A) : M A :=
  fun w =>
    match body w with
    | (Ok a, w') => (Ok a, w')
    | (Raise e, w') => handler e w'
    end.

Definition lift {A} (r : Result A) : M A := fun w => (r, w).

(** A call on the backend: answered from the history so far, then
    recorded. *)
Definition invoke {A} (c : Call) (answer : History -> Result A) : M A :=
  fun w =>
    (answer (calls w),
     {| xtdc_initialized := xtdc_initialized w; calls := calls w ++ [c] |}).

Definition set_initialized : M unit :=
  fun w => (Ok tt, {| xtdc_initialized := true; calls := calls w |}).

Declare Scope monad_scope.
Delimit Scope monad_scope with monad.
Notation "x <- m ;; k" := (bind m (fun x => k))
  (at level 61, m at next level, right associativity) : monad_scope.
Notation "m ;; k" := (bind m (fun _ => k))
  (at level 61, right associativity) : monad_scope.
Local Open Scope monad_scope.

Definition attribute_error (name : string) : exn :=
  {| exn_class := AttributeError; exn_str := lit name |}.

(* ================================================================== *)
(** ** The tool registry (lines 239-450) *)
(* ================================================================== *)

(** One tool of [handle_list_tools]: its name, the properties of its
    [inputSchema] (key, JSON type, default) and the [required] list.
    Descriptions are left out. *)
Record Tool := {
  tool_name : pystr;
  properties : list (pystr * (pystr * option Json));
  required : list pystr
}.

Definition str_prop (key : string) (default : option string)
  : pystr * (pystr * option Json) :=
  (lit key, (lit "string",
             match default with
             | Some d => Some (JStr (lit d))
             | None => None
             end)).

Definition handle_list_tools : list Tool :=
  [ {| tool_name := lit "get_trading_dates";
       properties := [str_prop "market" (Some "SH")];
       required := [] |};
    {| tool_name := lit "get_stock_list";
       properties := [str_prop "sector" (Some "沪深A股")];
       required := [] |};
    {| tool_name := lit "get_instrument_detail";
       properties := [str_prop "code" None;
                      (lit "iscomplete", (lit "boolean", Some (JBool false)))];
       required := [lit "code"] |};
    {| tool_name := lit "get_history_market_data";
       properties := [str_prop "codes" None; str_prop "period" (Some "1d");
                      str_prop "start_date" (Some ""); str_prop "end_date" (Some "");
                      str_prop "fields" (Some "")];
       required := [lit "codes"] |};
    {| tool_name := lit "get_latest_market_data";
       properties := [str_prop "codes" None; str_prop "period" (Some "1d")];
       required := [lit "codes"] |};
    {| tool_name := lit "get_full_market_data";
       properties := [str_prop "codes" None; str_prop "period" (Some "1d");
                      str_prop "start_date" (Some ""); str_prop "end_date" (Some "");
                      str_prop "fields" (Some "")];
       required := [lit "codes"] |};
    {| tool_name := lit "create_chart_panel";
       properties := [str_prop "codes" None; str_prop "period" (Some "1d");
                      str_prop "indicators" (Some "ma");
                      str_prop "params" (Some "5,10,20")];
       required := [lit "codes"] |};
    {| tool_name := lit "create_custom_layout";
       properties := [str_prop "codes" None; str_prop "period" (Some "1d");
                      str_prop "indicator_name" (Some "ma");
                      str_prop "param_names" (Some "n1,n2,n3");
                      str_prop "param_values" (Some "5,10,20")];
       required := [lit "codes"] |} ].


(** [types.TextContent(type="text", text=...)] *)
Record TextContent := { text : pystr }.

Section Server.

Variable E : Env.

(** [hasattr(xtdata, 'start_xtdata')]; [xtdata] may be [None]. *)
Definition start_method : option (History -> Result unit) :=
  match xtdata E with
  | Some b => start_xtdata b
  | None => None
  end.

(** Lines 122-140. *)
Definition ensure_xtdc_initialized : M unit :=
  fun w =>
    if negb (xtdc_initialized w) then
      try_except
        ((match start_method with
          | Some f => invoke CStartXtdata f
          | None => ret tt
          end) ;;
         set_initialized)
        (fun _ => ret tt) w
    else (Ok tt, w).

(* ---------------------------------------------------------------- *)
(** *** Input models (lines 143-174) *)

Record GetTradingDatesInput := { market : pystr }.
Record GetStockListInput := { sector : pystr }.
Record GetInstrumentDetailInput := { code : pystr; iscomplete : bool }.
Record GetMarketDataInput := {
  codes : pystr;
  period : pystr;
  start_date : pystr;
  end_date : pystr;
  fields : pystr
}.
Record CreateChartPanelInput := {
  cp_codes : pystr;
  cp_period : pystr;
  indicators : pystr;
  params : pystr
}.
Record CreateCustomLayoutInput := {
  cl_codes : pystr;
  cl_period : pystr;
  indicator_name : pystr;
  param_names : pystr;
  param_values : pystr
}.

(* ---------------------------------------------------------------- *)
(** *** Shared pieces *)

(** [[x.strip() for x in s.split(",") if x.strip()]] *)
Definition split_strip (s : pystr) : list pystr :=
  filter truthy (map strip (split comma s)).

Definition is_empty {A} (l : list A) : bool :=
  match l with [] => true | _ => false end.

(** [{"error": msg}] *)
Definition error_payload (msg : pystr) : Json :=
  JDict [(lit "error", JStr msg)].

Definition no_xtdata : pystr := lit "xtdata模块未正确加载".
Definition no_valid_codes : pystr := lit "未提供有效的股票代码".

(** [["open", "high", "low", "close", "volume"]] *)
Definition default_fields : list pystr :=
  [lit "open"; lit "high"; lit "low"; lit "close"; lit "volume"].

(** ["." in code and len(code) >= 6] *)
Definition looks_like_code (c : pystr) : bool :=
  contains dot c && (6 <=? length c)%nat.

(** The conversion loop shared by the three market-data handlers:
    [result[code] = {field: list(values)}]. *)
Definition normalize_fields (stock_data : Dict (list Json)) : Dict Json :=
  fold_left (fun acc fv => dict_set (fst fv) (JList (snd fv)) acc)
    stock_data [].

Definition normalize_market_data (data : MarketData) : Json :=
  JDict (fold_left
           (fun acc cs => dict_set (fst cs) (JDict (normalize_fields (snd cs))) acc)
           data []).

(** [fields] as parsed at lines 799-806. *)
Definition parse_fields (s : pystr) : list pystr :=
  let fs := if truthy s then split_strip s else [] in
  if is_empty fs then default_fields else fs.

(* ---------------------------------------------------------------- *)
(** *** [get_trading_dates] (lines 641-692) *)

(** [trading_dates[-30:] if len(trading_dates) > 30 else trading_dates] *)
Definition recent {A} (l : list A) : list A :=
  if (30 <? length l)%nat then skipn (length l - 30) l else l.

(** One turn of the formatting loop, lines 673-686. *)
Definition format_date (d : DateLike) : Result pystr :=
  match d with
  | DInt z =>
      let date_str := of_Z z in
      if (length date_str =? 8)%nat then
        Ok (firstn 4 date_str ++ [hyphen]
            ++ firstn 2 (skipn 4 date_str) ++ [hyphen] ++ skipn 6 date_str)
      else Ok (of_Z z)
  | DBool b => Ok (if b then lit "True" else lit "False")
  | DObj None s => Ok s
  | DObj (Some (Ok f)) _ => Ok f
  | DObj (Some (Raise e)) s =>
      if is_class AttributeError e then Ok s else Raise e
  end.

Fixpoint format_dates (ds : list DateLike) : Result (list pystr) :=
  match ds with
  | [] => Ok []
  | d :: r =>
      match format_date d with
      | Raise e => Raise e
      | Ok f =>
          match format_dates r with
          | Raise e => Raise e
          | Ok fs => Ok (f :: fs)
          end
      end
  end.

Definition no_trading_dates : pystr := lit "未找到交易日期数据".

Definition get_trading_dates (input : GetTradingDatesInput)
  : M (list pystr) :=
  try_except
    (ensure_xtdc_initialized ;;
     match xtdata E with
     | None => ret [lit "错误: " ++ no_xtdata]
     | Some b =>
         trading_dates <-
           invoke (CGetTradingDates (market input))
                  (fun h => get_trading_dates_ b h (market input)) ;;
         match trading_dates with
         | None => ret [no_trading_dates]
         | Some ds =>
             if (length ds =? 0)%nat then ret [no_trading_dates]
             else lift (format_dates (recent ds))
         end
     end)
    (fun e => ret [lit "错误: " ++ exn_str e]).

(* ---------------------------------------------------------------- *)
(** *** [get_stock_list] (lines 694-726) *)

Definition a_list (l : list pystr) : StockSeq :=
  {| is_list := true; items := l |}.

Definition get_stock_list (input : GetStockListInput) : M StockSeq :=
  try_except
    (ensure_xtdc_initialized ;;
     match xtdata E with
     | None => ret (a_list [lit "错误: " ++ no_xtdata])
     | Some b =>
         stock_list <-
           invoke (CGetStockListInSector (sector input))
                  (fun h => get_stock_list_in_sector b h (sector input)) ;;
         match stock_list with
         | None =>
             ret (a_list [lit "未找到板块 " ++ sector input
                          ++ lit " 的股票列表"])
         | Some sl =>
             if (length (items sl) =? 0)%nat then
               ret (a_list [lit "未找到板块 " ++ sector input
                            ++ lit " 的股票列表"])
             else if (50 <? length (items sl))%nat then
               ret {| is_list := is_list sl; items := firstn 50 (items sl) |}
             else ret sl
         end
     end)
    (fun e => ret (a_list [lit "错误: " ++ exn_str e])).

(* ---------------------------------------------------------------- *)
(** *** [get_instrument_detail] (lines 728-768) *)

Definition detail_json (v : DetailVal) : Json :=
  match v with
  | DScalar j => j
  | DObject s => JStr s
  end.

Definition get_instrument_detail (input : GetInstrumentDetailInput)
  : M Json :=
  try_except
    (ensure_xtdc_initialized ;;
     match xtdata E with
     | None => ret (error_payload no_xtdata)
     | Some b =>
         detail <-
           invoke (CGetInstrumentDetail (code input) (iscomplete input))
                  (fun h => get_instrument_detail_ b h (code input)
                              (iscomplete input)) ;;
         match detail with
         | None =>
             ret (JDict [(lit "message",
                          JStr (lit "未找到股票代码 " ++ code input
                                ++ lit " 的详细信息"))])
         | Some d =>
             ret (JDict (fold_left
                           (fun acc kv =>
                              dict_set (fst kv) (detail_json (snd kv)) acc)
                           d []))
         end
     end)
    (fun e => ret (error_payload (exn_str e))).

(* ---------------------------------------------------------------- *)
(** *** The market-data handlers (lines 771-989) *)

(** The inner [try] of the three handlers: the call on
    [xtdata.get_market_data], the [None] check and the conversion. *)
Definition fetch_market_data (b : Backend) (failed : pystr)
    (fs cs : list pystr) (p : pystr) (st en : option pystr)
    (count : option Z) : M Json :=
  try_except
    (data <- invoke (CGetMarketData fs cs p st en count)
               (fun h => get_market_data b h fs cs p st en count) ;;
     match data with
     | None => ret (error_payload failed)
     | Some d => ret (normalize_market_data d)
     end)
    (fun e => ret (error_payload (failed ++ lit ": " ++ exn_str e))).

Definition get_history_market_data (input : GetMarketDataInput) : M Json :=
  try_except
    (ensure_xtdc_initialized ;;
     match xtdata E with
     | None => ret (error_payload no_xtdata)
     | Some b =>
         let cs := split_strip (codes input) in
         if is_empty cs then ret (error_payload no_valid_codes)
         else
           fetch_market_data b (lit "获取历史行情数据失败")
             (parse_fields (fields input)) cs (period input)
             (Some (start_date input)) (Some (end_date input)) None
     end)
    (fun e => ret (error_payload (exn_str e))).

Definition get_latest_market_data (input : GetMarketDataInput) : M Json :=
  try_except
    (ensure_xtdc_initialized ;;
     match xtdata E with
     | None => ret (error_payload no_xtdata)
     | Some b =>
         let cs := split_strip (codes input) in
         if is_empty cs then ret (error_payload no_valid_codes)
         else
           let valid_codes := filter looks_like_code cs in
           if is_empty valid_codes then ret (error_payload no_valid_codes)
           else
             fetch_market_data b (lit "获取最新行情数据失败")
               default_fields valid_codes (period input)
               None None (Some 1)
     end)
    (fun e => ret (error_payload (exn_str e))).

Definition get_full_market_data (input : GetMarketDataInput) : M Json :=
  try_except
    (ensure_xtdc_initialized ;;
     match xtdata E with
     | None => ret (error_payload no_xtdata)
     | Some b =>
         let cs := split_strip (codes input) in
         if is_empty cs then ret (error_payload no_valid_codes)
         else
           let valid_codes := filter looks_like_code cs in
           if is_empty valid_codes then ret (error_payload no_valid_codes)
           else
             fetch_market_data b (lit "获取历史+最新行情数据失败")
               (parse_fields (fields input)) valid_codes (period input)
               (Some (start_date input)) (Some (end_date input))
               (Some (-1))
     end)
    (fun e => ret (error_payload (exn_str e))).

(* ---------------------------------------------------------------- *)
(** *** The panel controller (lines 991-1392) *)

Definition param_json (v : ParamVal) : Json :=
  match v with
  | PInt z => JInt z
  | PFloat q => JFloat q
  | PStr s => JStr s
  end.

(** [hasattr(xtdata, name)] for a panel-control name. *)
Definition has_panel_method (name : pystr) : bool :=
  match xtdata E with
  | Some b => match panel_method b name with Some _ => true | None => false end
  | None => false
  end.

Definition primary_method : pystr := lit "apply_ui_panel_control".

(** [possible_methods], lines 1124 and 1326. *)
Definition possible_methods : list pystr :=
  [lit "apply_panel_control"; lit "create_panel";
   lit "show_panel"; lit "display_panel"].

Definition env_info : Json :=
  JDict (sys_info E
         ++ [(lit "has_apply_ui_panel_control",
              JBool (has_panel_method primary_method))]).

(** Lines 1031-1032: a token that [isdigit()] goes through [int]. *)
Fixpoint parse_indicator_params (tokens : list pystr)
  : Result (list ParamVal) :=
  match tokens with
  | [] => Ok []
  | p :: r =>
      match (if py_isdigit E p
             then match py_int E p with
                  | Ok z => Ok (PInt z)
                  | Raise e => Raise e
                  end
             else Ok (PStr p)) with
      | Raise e => Raise e
      | Ok v =>
          match parse_indicator_params r with
          | Raise e => Raise e
          | Ok vs => Ok (v :: vs)
          end
      end
  end.

(** [for i, param in enumerate(indicator_params, 1): ma_params[f'n{i}'] = param] *)
Fixpoint ma_params (i : nat) (ps : list ParamVal) (acc : Dict ParamVal)
  : Dict ParamVal :=
  match ps with
  | [] => acc
  | p :: r => ma_params (S i) r (dict_set (lit "n" ++ of_nat i) p acc)
  end.

(** Lines 1035-1060. *)
Definition chart_indicator_config (ind : pystr) (ps : list ParamVal)
  : IndicatorConfig :=
  if PyStr.eqb ind (lit "ma") then
    {| ic_name := lit "ma"; ic_params := ma_params 1 ps [] |}
  else if PyStr.eqb ind (lit "macd") then
    match ps with
    | p0 :: p1 :: p2 :: _ =>
        {| ic_name := lit "macd";
           ic_params := [(lit "short", p0); (lit "long", p1); (lit "mid", p2)] |}
    | _ => {| ic_name := lit "macd"; ic_params := [] |}
    end
  else if PyStr.eqb ind (lit "kdj") then
    match ps with
    | p0 :: p1 :: p2 :: _ =>
        {| ic_name := lit "kdj";
           ic_params := [(lit "n", p0); (lit "m1", p1); (lit "m2", p2)] |}
    | _ => {| ic_name := lit "kdj"; ic_params := [] |}
    end
  else {| ic_name := ind; ic_params := [] |}.

(** One turn of the loop at lines 1069-1097 and 1271-1299: the panel and
    its entry in [panel_info]. *)
Definition build_panel (b : Backend) (per : pystr) (cfg : IndicatorConfig)
    (stock : pystr) : Panel * Json :=
  match UIPanel b stock per [cfg] with
  | Ok (panel_type, panel_str) =>
      (PanelObj stock per [cfg],
       JDict [(lit "stock", JStr stock); (lit "period", JStr per);
              (lit "figures", JStr (str_config E cfg));
              (lit "panel_type", JStr panel_type);
              (lit "panel_str", JStr panel_str)])
  | Raise e =>
      (PanelDict stock per [cfg],
       JDict [(lit "stock", JStr stock); (lit "period", JStr per);
              (lit "figures", JStr (str_config E cfg));
              (lit "panel_type", JStr (lit "dict"));
              (lit "error", JStr (exn_str e))])
  end.

(** A panel-control call with the clock read around it. *)
Definition timed_call (name : pystr)
    (f : History -> list Panel -> Result pystr) (panels : list Panel)
  : M Json :=
  fun w =>
    match invoke (CPanelMethod name panels) (fun h => f h panels) w with
    | (Ok r, w') =>
        (Ok (JDict [(lit "result", JStr r);
                    (lit "time_taken", JFloat (time_taken E (calls w)))]),
         w')
    | (Raise e, w') => (Raise e, w')
    end.

Definition error_entry (e : exn) : Json :=
  JDict [(lit "error", JStr (exn_str e))].

(** The [for ... else] over [possible_methods]: a method that returns
    ends the loop ([break]); one that raises is recorded and the loop goes
    on; the [else] branch runs when the loop was not broken. *)
Fixpoint try_methods (b : Backend) (panels : list Panel)
    (names : list pystr) (method_results : Dict Json) : M (Dict Json) :=
  match names with
  | [] => ret (dict_set (lit "no_method_found") (JBool true) method_results)
  | method_name :: rest =>
      match panel_method b method_name with
      | None => try_methods b panels rest method_results
      | Some f =>
          r <- try_except
                 (entry <- timed_call method_name f panels ;; ret (inl entry))
                 (fun e => ret (inr (error_entry e))) ;;
          match r with
          | inl entry => ret (dict_set method_name entry method_results)
          | inr err =>
              try_methods b panels rest
                (dict_set method_name err method_results)
          end
      end
  end.

(** Lines 1102-1146 and 1304-1348. *)
Definition apply_panel_control (b : Backend) (panels : list Panel)
  : M (Dict Json) :=
  match panel_method b primary_method with
  | Some f =>
      try_except
        (entry <- timed_call primary_method f panels ;;
         ret (dict_set primary_method entry []))
        (fun e => ret (dict_set primary_method (error_entry e) []))
  | None =>
      try_methods b panels possible_methods
        (dict_set primary_method (JDict [(lit "exists", JBool false)]) [])
  end.

(** Lines 1148-1156 and 1350-1358. *)
Definition refresh (b : Backend) (method_results : Dict Json)
  : M (Dict Json) :=
  try_except
    (match refresh_ui b with
     | Some f =>
         invoke CRefreshUI f ;;
         ret (dict_set (lit "refresh_ui")
                (JDict [(lit "called", JBool true)]) method_results)
     | None => ret method_results
     end)
    (fun e => ret (dict_set (lit "refresh_ui") (error_entry e) method_results)).

(** Panels built, applied and refreshed: the body of the inner [try]
    up to the [return]; yields [panel_info] and [method_results]. *)
Definition show_panels (b : Backend) (per : pystr) (cfg : IndicatorConfig)
    (stock_list : list pystr) : M (list Json * Dict Json) :=
  let built := map (build_panel b per cfg) stock_list in
  method_results <- apply_panel_control b (map fst built) ;;
  method_results <- refresh b method_results ;;
  ret (map snd built, method_results).

Definition panel_failed : pystr := lit "创建或应用面板时出错: ".

Definition create_chart_panel (input : CreateChartPanelInput) : M Json :=
  try_except
    (ensure_xtdc_initialized ;;
     match xtdata E with
     | None =>
         ret (JDict [(lit "error", JStr no_xtdata);
                     (lit "env_info", env_info)])
     | Some b =>
         let stock_list := split_strip (cp_codes input) in
         if is_empty stock_list then
           ret (JDict [(lit "error", JStr no_valid_codes);
                       (lit "env_info", env_info)])
         else
           indicator_params <-
             lift (parse_indicator_params (split_strip (params input))) ;;
           let indicator_config :=
             chart_indicator_config (indicators input) indicator_params in
           try_except
             (shown <- show_panels b (cp_period input) indicator_config
                         stock_list ;;
              ret (JDict
                [(lit "success", JBool true);
                 (lit "message",
                  JStr (lit "已成功创建 " ++ of_nat (length stock_list)
                        ++ lit " 个图表面板"));
                 (lit "details",
                  JDict [(lit "stocks", JList (map JStr stock_list));
                         (lit "period", JStr (cp_period input));
                         (lit "indicator", JStr (indicators input));
                         (lit "parameters",
                          JList (map param_json indicator_params))]);
                 (lit "debug_info",
                  JDict [(lit "env_info", env_info);
                         (lit "panel_info", JList (fst shown));
                         (lit "method_results", JDict (snd shown))])]))
             (fun e =>
                ret (JDict
                  [(lit "error", JStr (panel_failed ++ exn_str e));
                   (lit "debug_info",
                    JDict [(lit "env_info", env_info);
                           (lit "panel_info",
                            JList (map (fun s =>
                                     snd (build_panel b (cp_period input)
                                            indicator_config s))
                                   stock_list));
                           (lit "traceback", JStr (format_exc E e))])]))
     end)
    (fun e =>
       ret (JDict [(lit "error", JStr (exn_str e));
                   (lit "debug_info",
                    JDict [(lit "traceback", JStr (format_exc E e))])])).

(** Lines 1244-1253: one value of [param_values]. *)
Definition coerce_value (value : pystr) : Result ParamVal :=
  let attempt :=
    if contains dot value then
      match py_float E (strip value) with
      | Ok q => Ok (PFloat q)
      | Raise e => Raise e
      end
    else
      match py_int E (strip value) with
      | Ok z => Ok (PInt z)
      | Raise e => Raise e
      end in
  match attempt with
  | Ok v => Ok v
  | Raise e =>
      if is_class ValueError e then Ok (PStr (strip value)) else Raise e
  end.

Fixpoint parse_param_values (values : list pystr) : Result (list ParamVal) :=
  match values with
  | [] => Ok []
  | value :: r =>
      if truthy (strip value) then
        match coerce_value value with
        | Raise e => Raise e
        | Ok v =>
            match parse_param_values r with
            | Raise e => Raise e
            | Ok vs => Ok (v :: vs)
            end
        end
      else parse_param_values r
  end.

(** Lines 1256-1259: [zip], [enumerate] and the index test. *)
Fixpoint zip_params (i n : nat) (names : list pystr) (values : list ParamVal)
    (acc : Dict ParamVal) : Dict ParamVal :=
  match names, values with
  | name :: ns, value :: vs =>
      zip_params (S i) n ns vs
        (if (i <? n)%nat then dict_set name value acc else acc)
  | _, _ => acc
  end.

Definition layout_indicator_params (names : list pystr)
    (values : list ParamVal) : Dict ParamVal :=
  zip_params 0 (length values) names values [].

Definition create_custom_layout (input : CreateCustomLayoutInput) : M Json :=
  try_except
    (ensure_xtdc_initialized ;;
     match xtdata E with
     | None =>
         ret (JDict [(lit "error", JStr no_xtdata);
                     (lit "env_info", env_info)])
     | Some b =>
         let stock_list := split_strip (cl_codes input) in
         if is_empty stock_list then
           ret (JDict [(lit "error", JStr no_valid_codes);
                       (lit "env_info", env_info)])
         else
           let names := split_strip (param_names input) in
           values <-
             lift (parse_param_values (split comma (param_values input))) ;;
           let indicator_config :=
             {| ic_name := indicator_name input;
                ic_params := layout_indicator_params names values |} in
           try_except
             (shown <- show_panels b (cl_period input) indicator_config
                         stock_list ;;
              ret (JDict
                [(lit "success", JBool true);
                 (lit "message",
                  JStr (lit "已成功创建 " ++ of_nat (length stock_list)
                        ++ lit " 个自定义布局面板"));
                 (lit "details",
                  JDict [(lit "stocks", JList (map JStr stock_list));
                         (lit "period", JStr (cl_period input));
                         (lit "indicator", JStr (indicator_name input));
                         (lit "parameter_names", JList (map JStr names));
                         (lit "parameter_values",
                          JList (map param_json values))]);
                 (lit "debug_info",
                  JDict [(lit "env_info", env_info);
                         (lit "panel_info", JList (fst shown));
                         (lit "method_results", JDict (snd shown))])]))
             (fun e =>
                ret (JDict [(lit "error", JStr (panel_failed ++ exn_str e))]))
     end)
    (fun e =>
       ret (JDict [(lit "error", JStr (exn_str e));
                   (lit "debug_info",
                    JDict [(lit "traceback", JStr (format_exc E e))])])).

(* ---------------------------------------------------------------- *)
(** *** [handle_call_tool] (lines 452-638) *)

(** [arguments[k]] when [arguments and k in arguments]; an empty dict and
    [None] both have no key. *)
Definition arg (arguments : Arguments) (k : string) : option PyVal :=
  match arguments with
  | Some d => dict_get (lit k) d
  | None => None
  end.

(** [arguments.get(k, default)] *)
Definition arg_get (arguments : Arguments) (k : string) (default : string)
  : PyVal :=
  match arg arguments k with
  | Some v => v
  | None => VStr (lit default)
  end.

(** A [str] field of a pydantic model (pydantic 2, which [mcp] depends
    on): among the values JSON can carry, anything but a [str] is
    refused. *)
Definition validate_str (field : string) (v : PyVal) : Result pystr :=
  match v with
  | VStr s => Ok s
  | _ => Raise {| exn_class := ValidationError; exn_str := lit field |}
  end.

(** The receiver of [.split(",")]: only a [str] has the method. *)
Definition split_receiver (v : PyVal) : Result pystr :=
  match v with
  | VStr s => Ok s
  | _ => Raise (attribute_error "split")
  end.

Definition missing_parameter (field : string) : list TextContent :=
  [{| text := lit "错误: 缺少必要参数 '" ++ lit field ++ lit "'" |}].

Definition content (j : Json) : list TextContent :=
  [{| text := json_dumps E j |}].

Definition default_codes_literal : pystr := lit "000001.SZ,600519.SH".

(** Lines 573-577: the default drawn from what the lookup returned. *)
Definition default_codes_of (stock_list : StockSeq) : pystr :=
  if is_list stock_list && (0 <? length (items stock_list))%nat
  then join [comma] (firstn 5 (items stock_list))
  else default_codes_literal.

(** Lines 570-579, for any lookup. *)
Definition resolve_default_codes_with (lookup : M StockSeq) : M pystr :=
  try_except
    (stock_list <- lookup ;; ret (default_codes_of stock_list))
    (fun _ => ret default_codes_literal).

Definition resolve_default_codes : M pystr :=
  resolve_default_codes_with
    (get_stock_list {| sector := lit "沪深A股" |}).

(** Lines 564-584 and 601-621: [arguments["codes"]] after defaulting.
    The source also stores the default in the caller's dict; nothing reads
    it again but the line that follows. *)
Definition codes_or_default (arguments : Arguments) : M PyVal :=
  match arg arguments "codes" with
  | Some v =>
      if val_truthy v then ret v
      else (d <- resolve_default_codes ;; ret (VStr d))
  | None => d <- resolve_default_codes ;; ret (VStr d)
  end.

(** Construction of [GetMarketDataInput] from the five values. *)
Definition market_data_input (c p s e f : PyVal) : Result GetMarketDataInput :=
  match validate_str "codes" c, validate_str "period" p,
        validate_str "start_date" s, validate_str "end_date" e,
        validate_str "fields" f with
  | Ok c', Ok p', Ok s', Ok e', Ok f' =>
      Ok {| codes := c'; period := p'; start_date := s';
            end_date := e'; fields := f' |}
  | Raise x, _, _, _, _ | _, Raise x, _, _, _ | _, _, Raise x, _, _
  | _, _, _, Raise x, _ | _, _, _, _, Raise x => Raise x
  end.

Definition is_tool (name : pystr) (tool : string) : bool :=
  PyStr.eqb name (lit tool).

Definition handle_call_tool (name : pystr) (arguments : Arguments)
  : M (list TextContent) :=
  if is_tool name "get_trading_dates" then
    m <- lift (validate_str "market" (arg_get arguments "market" "SH")) ;;
    result <- get_trading_dates {| market := m |} ;;
    ret (content (JList (map JStr result)))
  else if is_tool name "get_stock_list" then
    sec <- lift (validate_str "sector"
                   (arg_get arguments "sector" "沪深A股")) ;;
    result <- get_stock_list {| sector := sec |} ;;
    ret (content (JList (map JStr (items result))))
  else if is_tool name "get_instrument_detail" then
    match arg arguments "code" with
    | None => ret (missing_parameter "code")
    | Some code_v =>
        let isc :=
          match arg arguments "iscomplete" with
          | Some (VBool b) => b
          | Some (VStr s) => lower_is_true s
          | _ => false
          end in
        c <- lift (validate_str "code" code_v) ;;
        result <- get_instrument_detail {| code := c; iscomplete := isc |} ;;
        ret (content result)
    end
  else if is_tool name "get_history_market_data" then
    match arg arguments "codes" with
    | None => ret (missing_parameter "codes")
    | Some codes_str =>
        _ <- lift (split_receiver codes_str) ;;
        let fields_str := arg_get arguments "fields" "" in
        _ <- lift (split_receiver fields_str) ;;
        input_model <-
          lift (market_data_input codes_str
                  (arg_get arguments "period" "1d")
                  (arg_get arguments "start_date" "")
                  (arg_get arguments "end_date" "") fields_str) ;;
        result <- get_history_market_data input_model ;;
        ret (content result)
    end
  else if is_tool name "get_latest_market_data" then
    match arg arguments "codes" with
    | None => ret (missing_parameter "codes")
    | Some codes_str =>
        _ <- lift (split_receiver codes_str) ;;
        input_model <-
          lift (market_data_input codes_str
                  (arg_get arguments "period" "1d")
                  (VStr []) (VStr []) (VStr [])) ;;
        result <- get_latest_market_data input_model ;;
        ret (content result)
    end
  else if is_tool name "get_full_market_data" then
    match arg arguments "codes" with
    | None => ret (missing_parameter "codes")
    | Some codes_str =>
        _ <- lift (split_receiver codes_str) ;;
        let fields_str := arg_get arguments "fields" "" in
        _ <- lift (split_receiver fields_str) ;;
        input_model <-
          lift (market_data_input codes_str
                  (arg_get arguments "period" "1d")
                  (arg_get arguments "start_date" "")
                  (arg_get arguments "end_date" "") fields_str) ;;
        result <- get_full_market_data input_model ;;
        ret (content result)
    end
  else if is_tool name "create_chart_panel" then
    codes_v <- codes_or_default arguments ;;
    input_model <-
      lift (match validate_str "codes" codes_v,
                  validate_str "period" (arg_get arguments "period" "1d"),
                  validate_str "indicators"
                    (arg_get arguments "indicators" "ma"),
                  validate_str "params"
                    (arg_get arguments "params" "5,10,20") with
            | Ok c, Ok p, Ok i, Ok ps =>
                Ok {| cp_codes := c; cp_period := p;
                      indicators := i; params := ps |}
            | Raise x, _, _, _ | _, Raise x, _, _
            | _, _, Raise x, _ | _, _, _, Raise x => Raise x
            end) ;;
    result <- create_chart_panel input_model ;;
    ret (content result)
  else if is_tool name "create_custom_layout" then
    codes_v <- codes_or_default arguments ;;
    input_model <-
      lift (match validate_str "codes" codes_v,
                  validate_str "period" (arg_get arguments "period" "1d"),
                  validate_str "indicator_name"
                    (arg_get arguments "indicator_name" "ma"),
                  validate_str "param_names"
                    (arg_get arguments "param_names" "n1,n2,n3"),
                  validate_str "param_values"
                    (arg_get arguments "param_values" "5,10,20") with
            | Ok c, Ok p, Ok i, Ok ns, Ok vs =>
                Ok {| cl_codes := c; cl_period := p; indicator_name := i;
                      param_names := ns; param_values := vs |}
            | Raise x, _, _, _, _ | _, Raise x, _, _, _ | _, _, Raise x, _, _
            | _, _, _, Raise x, _ | _, _, _, _, Raise x => Raise x
            end) ;;
    result <- create_custom_layout input_model ;;
    ret (content result)
  else
    raise {| exn_class := ValueError;
             exn_str := lit "Unknown tool: " ++ name |}.

End Server.

(* ================================================================== *)
(** ** A concrete environment: [MockXtdata] (lines 63-115) *)
(* ================================================================== *)

Module Mock.

(** Decimal text of ASCII digits, for the built-ins of this environment. *)
Definition digit_of (c : char) : option Z :=
  if ((48 <=? c) && (c <=? 57))%N then Some (Z.of_N c - 48) else None.

Fixpoint digits_value (s : pystr) (acc : Z) : option Z :=
  match s with
  | [] => Some acc
  | c :: r =>
      match digit_of c with
      | Some d => digits_value r (10 * acc + d)
      | None => None
      end
  end.

Definition unsigned (s : pystr) : option Z :=
  match s with
  | [] => None
  | _ => digits_value s 0
  end.

(** Sign and the rest of a numeral. *)
Definition signed (s : pystr) : Z * pystr :=
  match s with
  | 45%N :: r => (-1, r)
  | 43%N :: r => (1, r)
  | _ => (1, s)
  end.

Definition value_error (what : string) (s : pystr) : exn :=
  {| exn_class := ValueError; exn_str := lit what ++ s |}.

(** [int(s)] on text made of an optional sign and ASCII digits. *)
Definition int_ (s : pystr) : Result Z :=
  let (sg, body) := signed s in
  match unsigned body with
  | Some v => Ok (sg * v)
  | None => Raise (value_error "invalid literal for int() with base 10: " s)
  end.

Fixpoint break_dot (s : pystr) : pystr * option pystr :=
  match s with
  | [] => ([], None)
  | c :: r =>
      if char_eqb c dot then ([], Some r)
      else let (a, b) := break_dot r in (c :: a, b)
  end.

(** [float(s)] on text of the shape [digits.digits] with an optional
    sign; either side of the point may be empty, not both. *)
Definition float_ (s : pystr) : Result Q :=
  let bad := Raise (value_error "could not convert string to float: " s) in
  let (sg, body) := signed s in
  match break_dot body with
  | (ip, None) =>
      match unsigned ip with
      | Some v => Ok (inject_Z (sg * v))
      | None => bad
      end
  | (ip, Some fp) =>
      match ip, fp with
      | [], [] => bad
      | _, _ =>
          match digits_value ip 0, digits_value fp 0 with
          | Some a, Some b =>
              Ok (Qred (Qmake (sg * (a * 10 ^ Z.of_nat (length fp) + b))
                          (Z.to_pos (10 ^ Z.of_nat (length fp)))))
          | _, _ => bad
          end
      end
  end.

Definition isdigit (s : pystr) : bool :=
  match s with
  | [] => false
  | _ => forallb (fun c => match digit_of c with Some _ => true | None => false end) s
  end.

(** [repr] of a float that has a finite decimal expansion. *)
Fixpoint fraction_digits (fuel : nat) (r d : Z) : pystr :=
  match fuel with
  | O => []
  | S n =>
      if r =? 0 then []
      else of_Z (10 * r / d) ++ fraction_digits n (10 * r mod d) d
  end.

Definition float_repr (q : Q) : pystr :=
  let n := Qnum q in
  let d := Zpos (Qden q) in
  let a := Z.abs n in
  (if n <? 0 then [hyphen] else [])
  ++ of_Z (a / d) ++ [dot]
  ++ match fraction_digits 17 (a mod d) d with
     | [] => lit "0"
     | ds => ds
     end.

Definition quote (s : pystr) : pystr :=
  [34%N]
  ++ flat_map (fun c =>
       if (c =? 34)%N then [92; 34]%N
       else if (c =? 92)%N then [92; 92]%N
       else if (c =? 10)%N then [92; 110]%N
       else [c]) s
  ++ [34%N].

Definition spaces (n : nat) : pystr := repeat 32%N n.
Definition newline : pystr := [10%N].

(** [json.dumps(j, ensure_ascii=False, indent=2)] *)
Fixpoint dumps_at (ind : nat) (j : Json) : pystr :=
  match j with
  | JNull => lit "null"
  | JBool b => if b then lit "true" else lit "false"
  | JInt z => of_Z z
  | JFloat q => float_repr q
  | JStr s => quote s
  | JList [] => lit "[]"
  | JList l =>
      lit "[" ++ newline
      ++ join (lit "," ++ newline)
           (map (fun x => spaces (ind + 2) ++ dumps_at (ind + 2) x) l)
      ++ newline ++ spaces ind ++ lit "]"
  | JDict [] => lit "{}"
  | JDict d =>
      lit "{" ++ newline
      ++ join (lit "," ++ newline)
           (map (fun kv =>
                   match kv with
                   | (k, v) =>
                       spaces (ind + 2) ++ quote k ++ lit ": "
                       ++ dumps_at (ind + 2) v
                   end) d)
      ++ newline ++ spaces ind ++ lit "}"
  end.

Definition dumps (j : Json) : pystr := dumps_at 0 j.

Definition repr_param (v : ParamVal) : pystr :=
  match v with
  | PInt z => of_Z z
  | PFloat q => float_repr q
  | PStr s => lit "'" ++ s ++ lit "'"
  end.

(** [str] of [{name: {key: value, ...}}] *)
Definition repr_config (c : IndicatorConfig) : pystr :=
  lit "{'" ++ ic_name c ++ lit "': {"
  ++ join (lit ", ")
       (map (fun kv => lit "'" ++ fst kv ++ lit "': " ++ repr_param (snd kv))
            (ic_params c))
  ++ lit "}}".

(** The module's own [UIPanel] class, lines 108-115: never raises. *)
Definition UIPanel_class (stock per : pystr) (figures : list IndicatorConfig)
  : Result (pystr * pystr) :=
  Ok (lit "<class 'xtquantai.server.UIPanel'>",
      lit "UIPanel(stock=" ++ stock ++ lit ", period=" ++ per
      ++ lit ", figures=[" ++ join (lit ", ") (map repr_config figures)
      ++ lit "])").

(** The sample series of [MockXtdata.get_market_data], lines 90-101. *)
Definition sample_series (field : pystr) : list Json :=
  if PyStr.eqb field (lit "close") then
    [JFloat 100; JFloat 101; JFloat 102]
  else if PyStr.eqb field (lit "open") then
    [JFloat 99; JFloat 100; JFloat 101]
  else if PyStr.eqb field (lit "high") then
    [JFloat 102; JFloat 103; JFloat 104]
  else if PyStr.eqb field (lit "low") then
    [JFloat 98; JFloat 99; JFloat 100]
  else if PyStr.eqb field (lit "volume") then
    [JInt 10000; JInt 12000; JInt 15000]
  else [JFloat 0; JFloat 0; JFloat 0].

Definition mock_market_data (fs stock_list : list pystr) : MarketData :=
  fold_left
    (fun result stock =>
       dict_set stock
         (fold_left (fun stock_data field =>
                       dict_set field (sample_series field) stock_data)
                    fs [])
         result)
    stock_list [].

Definition a_str (s : string) : DateLike := DObj None (lit s).

Definition MockXtdata : Backend :=
  {| start_xtdata := None;
     get_trading_dates_ := fun _ _ =>
       Ok (Some [a_str "2023-01-01"; a_str "2023-01-02"; a_str "2023-01-03"]);
     get_stock_list_in_sector := fun _ _ =>
       Ok (Some (a_list [lit "000001.SZ"; lit "600519.SH"; lit "300059.SZ"]));
     get_instrument_detail_ := fun _ c _ =>
       Ok (Some [(lit "code", DScalar (JStr c));
                 (lit "name", DScalar (JStr (lit "模拟股票")));
                 (lit "price", DScalar (JFloat 100))]);
     get_market_data := fun _ fs stock_list _ _ _ _ =>
       Ok (Some (mock_market_data fs stock_list));
     panel_method := fun name =>
       if PyStr.eqb name (lit "apply_ui_panel_control")
       then Some (fun _ _ => Ok (lit "True"))
       else None;
     refresh_ui := None;
     UIPanel := UIPanel_class |}.

(** An environment around a given backend. *)
Definition env_of (b : option Backend) : Env :=
  {| xtdata := b;
     py_int := int_;
     py_float := float_;
     py_isdigit := isdigit;
     json_dumps := dumps;
     str_config := repr_config;
     sys_info := [(lit "platform", JStr (lit "win32"))];
     time_taken := fun _ => 0%Q;
     format_exc := fun e => exn_str e |}.

Definition env : Env := env_of (Some MockXtdata).

End Mock.

(* ================================================================== *)
(** ** Notions used in the statements *)
(* ================================================================== *)

Unset Implicit Arguments.

(** [n] calls of [ensure_xtdc_initialized] in a row. *)
Fixpoint ensure_times (E : Env) (n : nat) (w : World) : World :=
  match n with
  | O => w
  | S k => ensure_times E k (snd (ensure_xtdc_initialized E w))
  end.

Definition is_start (c : Call) : bool :=
  match c with CStartXtdata => true | _ => false end.

(** How often [start_xtdata] was invoked in a history. *)
Definition starts (h : History) : nat := length (filter is_start h).

(** Whether the startup attempted from [w] goes through: there is no
    [start_xtdata], or it returns. *)
Definition startup_returns (E : Env) (w : World) : bool :=
  match start_method E with
  | None => true
  | Some f => match f (calls w) with Ok _ => true | Raise _ => false end
  end.

(** A backend like [MockXtdata] whose [start_xtdata] exists and raises at
    every call. *)
Definition failing_start : Backend :=
  {| start_xtdata :=
       Some (fun _ => Raise {| exn_class := OtherError;
                               exn_str := lit "connect failed" |});
     get_trading_dates_ := get_trading_dates_ Mock.MockXtdata;
     get_stock_list_in_sector := get_stock_list_in_sector Mock.MockXtdata;
     get_instrument_detail_ := get_instrument_detail_ Mock.MockXtdata;
     get_market_data := get_market_data Mock.MockXtdata;
     panel_method := panel_method Mock.MockXtdata;
     refresh_ui := None;
     UIPanel := Mock.UIPanel_class |}.

(** A backend whose [start_xtdata] exists and returns. *)
Definition working_start : Backend :=
  {| start_xtdata := Some (fun _ => Ok tt);
     get_trading_dates_ := get_trading_dates_ Mock.MockXtdata;
     get_stock_list_in_sector := get_stock_list_in_sector Mock.MockXtdata;
     get_instrument_detail_ := get_instrument_detail_ Mock.MockXtdata;
     get_market_data := get_market_data Mock.MockXtdata;
     panel_method := panel_method Mock.MockXtdata;
     refresh_ui := None;
     UIPanel := Mock.UIPanel_class |}.

(** The fields the specification marks required, by tool. *)
Definition spec_required : list (string * string) :=
  [("get_instrument_detail", "code");
   ("get_history_market_data", "codes");
   ("get_latest_market_data", "codes");
   ("get_full_market_data", "codes")].

(** The world a handler works in once the guard has run. *)
Definition ready (E : Env) (w : World) : World :=
  snd (ensure_xtdc_initialized E w).

(** The world after one more call on the backend. *)
Definition called (w : World) (c : Call) : World :=
  {| xtdc_initialized := xtdc_initialized w; calls := calls w ++ [c] |}.

(** [MockXtdata] with a given answer of [get_trading_dates]. *)
Definition with_trading_dates (ds : option (list DateLike)) : Backend :=
  {| start_xtdata := None;
     get_trading_dates_ := fun _ _ => Ok ds;
     get_stock_list_in_sector := get_stock_list_in_sector Mock.MockXtdata;
     get_instrument_detail_ := get_instrument_detail_ Mock.MockXtdata;
     get_market_data := get_market_data Mock.MockXtdata;
     panel_method := panel_method Mock.MockXtdata;
     refresh_ui := None;
     UIPanel := Mock.UIPanel_class |}.

(** An entry whose formatting cannot fail: [strftime], when present,
    returns or raises [AttributeError]. *)
Definition formats (d : DateLike) : bool :=
  match d with
  | DObj (Some (Raise e)) _ => is_class AttributeError e
  | _ => true
  end.

(** [MockXtdata] with the given panel-control methods in place of its
    own; each one returns or raises as listed. *)
Definition with_panel_methods (present : Dict (Result pystr)) : Backend :=
  {| start_xtdata := None;
     get_trading_dates_ := get_trading_dates_ Mock.MockXtdata;
     get_stock_list_in_sector := get_stock_list_in_sector Mock.MockXtdata;
     get_instrument_detail_ := get_instrument_detail_ Mock.MockXtdata;
     get_market_data := get_market_data Mock.MockXtdata;
     panel_method := fun name =>
       match dict_get name present with
       | Some r => Some (fun _ _ => r)
       | None => None
       end;
     refresh_ui := None;
     UIPanel := Mock.UIPanel_class |}.

(** [j[k]] for a payload. *)
Definition json_field (k : string) (j : Json) : option Json :=
  match j with
  | JDict d => dict_get (lit k) d
  | _ => None
  end.

(** [j["debug_info"]["method_results"]] *)
Definition method_results_of (j : Json) : option Json :=
  match json_field "debug_info" j with
  | Some d => json_field "method_results" d
  | None => None
  end.

Definition panel_stock (p : Panel) : pystr :=
  match p with
  | PanelObj s _ _ | PanelDict s _ _ => s
  end.

(** The panels a handler builds for its stocks. *)
Definition panels_for (E : Env) (b : Backend) (per : pystr)
    (cfg : IndicatorConfig) (stock_list : list pystr) : list Panel :=
  map fst (map (build_panel E b per cfg) stock_list).

(** The names of the panel-control methods called in a history. *)
Fixpoint panel_calls (h : History) : list pystr :=
  match h with
  | [] => []
  | CPanelMethod name _ :: r => name :: panel_calls r
  | _ :: r => panel_calls r
  end.

Definition not_exists_entry : Json := JDict [(lit "exists", JBool false)].

Definition result_entry (E : Env) (r : pystr) (w : World) : Json :=
  JDict [(lit "result", JStr r);
         (lit "time_taken", JFloat (time_taken E (calls w)))].


(** [MockXtdata] with a given answer of [get_stock_list_in_sector]. *)
Definition with_stock_list (answer : Result (option StockSeq)) : Backend :=
  {| start_xtdata := None;
     get_trading_dates_ := get_trading_dates_ Mock.MockXtdata;
     get_stock_list_in_sector := fun _ _ => answer;
     get_instrument_detail_ := get_instrument_detail_ Mock.MockXtdata;
     get_market_data := get_market_data Mock.MockXtdata;
     panel_method := panel_method Mock.MockXtdata;
     refresh_ui := None;
     UIPanel := Mock.UIPanel_class |}.






Definition is_dict (j : Json) : Prop :=
  match j with JDict _ => True | _ => False end.

(* ================================================================== *)
(** ** The remaining protocol handlers (lines 176-237) *)
(* ================================================================== *)

(** [handle_list_resources] and [handle_list_prompts]: nothing is
    offered.  The element type is never inhabited by this server. *)
Definition handle_list_resources : M (list pystr) := ret [].
Definition handle_list_prompts : M (list pystr) := ret [].

(** [handle_read_resource(uri)], with [uri] as [str(uri)]. *)
Definition handle_read_resource (uri : pystr) : M pystr :=
  raise {| exn_class := ValueError;
           exn_str := lit "Unsupported URI: " ++ uri |}.

(** [handle_get_prompt(name, arguments)] *)
Definition handle_get_prompt (name : pystr) (arguments : option (Dict pystr))
  : M Json :=
  raise {| exn_class := ValueError;
           exn_str := lit "Unknown prompt: " ++ name |}.

(* ================================================================== *)
(** ** Further notions used in the statements *)
(* ================================================================== *)

(** A backend that gives fixed answers: each method returns or raises as
    told, whatever it is called with; the panel-control methods are those
    listed; [UIPanel] succeeds or raises according to [ctor]. *)
Definition fixed_backend
    (start : option (Result unit))
    (dates : Result (option (list DateLike)))
    (stocks : Result (option StockSeq))
    (detail : Result (option (Dict DetailVal)))
    (data : Result (option MarketData))
    (panel : Dict (Result pystr))
    (refresh_ : option (Result unit))
    (ctor : option exn) : Backend :=
  {| start_xtdata :=
       match start with Some r => Some (fun _ => r) | None => None end;
     get_trading_dates_ := fun _ _ => dates;
     get_stock_list_in_sector := fun _ _ => stocks;
     get_instrument_detail_ := fun _ _ _ => detail;
     get_market_data := fun _ _ _ _ _ _ _ => data;
     panel_method := fun name =>
       match dict_get name panel with
       | Some r => Some (fun _ _ => r)
       | None => None
       end;
     refresh_ui :=
       match refresh_ with Some r => Some (fun _ => r) | None => None end;
     UIPanel := fun stock per figures =>
       match ctor with
       | Some e => Raise e
       | None => Mock.UIPanel_class stock per figures
       end |}.

Definition some_error (msg : string) : exn :=
  {| exn_class := OtherError; exn_str := lit msg |}.

(** The keys of a dict, in order. *)
Definition keys {V} (d : Dict V) : list pystr := map fst d.

(** The message of [get_stock_list] for a sector without stocks. *)
Definition no_stocks (sec : pystr) : pystr :=
  lit "未找到板块 " ++ sec ++ lit " 的股票列表".

(** No whitespace in front. *)
Definition no_lead (s : pystr) : bool :=
  match s with
  | [] => true
  | c :: _ => negb (is_space c)
  end.

(** No whitespace at either end. *)
Definition trimmed (s : pystr) : bool := no_lead s && no_lead (rev s).

(** A token as the comma-separated parameters are read: not empty, no
    comma in it, no whitespace around it. *)
Definition clean_token (t : pystr) : bool :=
  truthy t && negb (contains comma t) && trimmed t.

(** The key of the [i]-th positional parameter of [ma]: [f'n{i}']. *)
Definition ma_key (i : nat) : pystr := lit "n" ++ of_nat i.

(** How [create_chart_panel] reads one token of [params]. *)
Definition chart_param (E : Env) (t : pystr) (v : ParamVal) : Prop :=
  if py_isdigit E t then exists z, py_int E t = Ok z /\ v = PInt z
  else v = PStr t.

(** [{"error": str(e), "debug_info": {"traceback": ...}}], the value of
    the outermost [except] of the two panel handlers. *)
Definition outer_error (E : Env) (e : exn) : Json :=
  JDict [(lit "error", JStr (exn_str e));
         (lit "debug_info",
          JDict [(lit "traceback", JStr (format_exc E e))])].

(** [{"error": "未提供有效的股票代码", "env_info": env_info}] *)
Definition no_codes_error (E : Env) : Json :=
  JDict [(lit "error", JStr no_valid_codes); (lit "env_info", env_info E)].

(** The non-blank pieces of [param_values], untrimmed, in order. *)
Definition value_pieces (s : pystr) : list pystr :=
  filter (fun v => truthy (strip v)) (split comma s).


(** A sequence of tool calls, one after the other as the server loop
    runs them; results and exceptions go to the client, the world goes
    on. *)
Fixpoint serve (E : Env) (requests : list (pystr * Arguments)) (w : World)
  : World :=
  match requests with
  | [] => w
  | (name, arguments) :: rest =>
      serve E rest (snd (handle_call_tool E name arguments w))
  end.

(** A computation that, started with the service initialised, leaves it
    initialised and does not invoke [start_xtdata]. *)
Definition settled {A} (m : M A) : Prop :=
  forall w r w',
    xtdc_initialized w = true -> m w = (r, w') ->
    xtdc_initialized w' = true /\ starts (calls w') = starts (calls w).

(** [arguments] with one more key, which it did not have. *)
Definition with_arg (arguments : Arguments) (k : string) (v : PyVal)
  : Arguments :=
  Some (match arguments with
        | Some d => d ++ [(lit k, v)]
        | None => [(lit k, v)]
        end).

(** The string properties the registry declares a default for: tool,
    key, default. *)
Definition declared_defaults : list (string * string * string) :=
  [("get_trading_dates", "market", "SH");
   ("get_stock_list", "sector", "沪深A股");
   ("get_history_market_data", "period", "1d");
   ("get_history_market_data", "start_date", "");
   ("get_history_market_data", "end_date", "");
   ("get_history_market_data", "fields", "");
   ("get_latest_market_data", "period", "1d");
   ("get_full_market_data", "period", "1d");
   ("get_full_market_data", "start_date", "");
   ("get_full_market_data", "end_date", "");
   ("get_full_market_data", "fields", "");
   ("create_chart_panel", "period", "1d");
   ("create_chart_panel", "indicators", "ma");
   ("create_chart_panel", "params", "5,10,20");
   ("create_custom_layout", "period", "1d");
   ("create_custom_layout", "indicator_name", "ma");
   ("create_custom_layout", "param_names", "n1,n2,n3");
   ("create_custom_layout", "param_values", "5,10,20")].

(** The same, read off [handle_list_tools]. *)
Definition registry_defaults : list (pystr * pystr * pystr) :=
  flat_map
    (fun t =>
       flat_map
         (fun prop =>
            match prop with
            | (k, (_, Some (JStr d))) => [(tool_name t, k, d)]
            | _ => []
            end)
         (properties t))
    handle_list_tools.




(** Whether [xtdata] has a panel-control method of that name. *)
Definition present (b : Backend) (name : pystr) : bool :=
  match panel_method b name with Some _ => true | None => false end.

(* ================================================================== *)
(** ** Properties *)
(* ================================================================== *)

(** *** Strings and dicts *)

Lemma eqb_refl (s : pystr) : PyStr.eqb s s = true.
Proof.
  induction s as [|c s IH]; simpl; [reflexivity|].
  unfold char_eqb. now rewrite N.eqb_refl.
Qed.

Lemma eqb_eq (s t : pystr) : PyStr.eqb s t = true <-> s = t.
Proof.
  split.
  - revert t. induction s as [|c s IH]; intros [|d t]; simpl; try discriminate.
    + reflexivity.
    + unfold char_eqb. intros H. apply andb_true_iff in H as [Hc Hs].
      apply N.eqb_eq in Hc. subst. f_equal. now apply IH.
  - intros ->. apply eqb_refl.
Qed.

Lemma eqb_neq (s t : pystr) : PyStr.eqb s t = false <-> s <> t.
Proof.
  split.
  - intros H Heq. apply eqb_eq in Heq. congruence.
  - intros H. destruct (PyStr.eqb s t) eqn:Heq; [|reflexivity].
    apply eqb_eq in Heq. contradiction.
Qed.

(** *** The initialisation guard *)

Lemma ensure_returns (E : Env) (w : World) :
  fst (ensure_xtdc_initialized E w) = Ok tt.
Proof.
  unfold ensure_xtdc_initialized.
  destruct (xtdc_initialized w); simpl; [reflexivity|].
  unfold try_except, bind, invoke, set_initialized, ret.
  destruct (start_method E) as [f|]; simpl; [|reflexivity].
  destruct (f (calls w)) as [[]|e]; reflexivity.
Qed.

Lemma ensure_noop (E : Env) (w : World) :
  xtdc_initialized w = true -> ensure_xtdc_initialized E w = (Ok tt, w).
Proof. intros H. unfold ensure_xtdc_initialized. now rewrite H. Qed.

Lemma ensure_times_noop (E : Env) (n : nat) (w : World) :
  xtdc_initialized w = true -> ensure_times E n w = w.
Proof.
  induction n as [|n IH]; intros H; simpl; [reflexivity|].
  rewrite ensure_noop by assumption. simpl. now apply IH.
Qed.

(** What one call does to the world when the flag is unset. *)
Lemma ensure_unset (E : Env) (w : World) :
  xtdc_initialized w = false ->
  snd (ensure_xtdc_initialized E w) =
  match start_method E with
  | None => {| xtdc_initialized := true; calls := calls w |}
  | Some f =>
      {| xtdc_initialized :=
           match f (calls w) with Ok _ => true | Raise _ => false end;
         calls := calls w ++ [CStartXtdata] |}
  end.
Proof.
  intros H. unfold ensure_xtdc_initialized. rewrite H. simpl.
  unfold try_except, bind, invoke, set_initialized, ret.
  destruct (start_method E) as [f|]; simpl; [|reflexivity].
  destruct (f (calls w)) as [[]|e]; simpl; rewrite ?H; reflexivity.
Qed.

Lemma starts_app (h k : History) : starts (h ++ k) = (starts h + starts k)%nat.
Proof. unfold starts. now rewrite filter_app, length_app. Qed.

Lemma ensure_starts_le (E : Env) (w : World) :
  (starts (calls (snd (ensure_xtdc_initialized E w))) <= starts (calls w) + 1)%nat.
Proof.
  destruct (xtdc_initialized w) eqn:H.
  - rewrite ensure_noop by assumption. simpl. lia.
  - rewrite ensure_unset by assumption.
    destruct (start_method E); simpl; [|lia].
    rewrite starts_app. change (starts [CStartXtdata]) with 1%nat. lia.
Qed.

(** C2 (as amended): [ensure_xtdc_initialized] never raises, and a call
    made once the flag is set changes nothing.  From an unset flag, when
    the startup goes through (there is no [start_xtdata], or it returns)
    every later call is a no-op and [start_xtdata] is invoked at most once
    over any number of calls; when [start_xtdata] raises, the call is
    recorded, the flag stays unset, and so the next call invokes it
    again. *)
Theorem ensure_starts_once_after_success (E : Env) (w : World) (n : nat) :
  (forall w0, fst (ensure_xtdc_initialized E w0) = Ok tt)
  /\ (xtdc_initialized w = true -> ensure_times E n w = w)
  /\ (xtdc_initialized w = false -> startup_returns E w = true ->
      ensure_times E (S n) w = snd (ensure_xtdc_initialized E w)
      /\ (starts (calls (ensure_times E (S n) w)) <= starts (calls w) + 1)%nat)
  /\ (xtdc_initialized w = false -> startup_returns E w = false ->
      xtdc_initialized (snd (ensure_xtdc_initialized E w)) = false
      /\ calls (snd (ensure_xtdc_initialized E w)) = calls w ++ [CStartXtdata]).
Proof.
  split; [apply ensure_returns|].
  split; [apply ensure_times_noop|].
  split.
  - intros Hw Hs. simpl.
    assert (Hset : xtdc_initialized (snd (ensure_xtdc_initialized E w)) = true).
    { rewrite ensure_unset by assumption. unfold startup_returns in Hs.
      destruct (start_method E) as [f|]; simpl; [|reflexivity].
      destruct (f (calls w)); [reflexivity|discriminate]. }
    rewrite ensure_times_noop by assumption.
    split; [reflexivity|apply ensure_starts_le].
  - intros Hw Hs. rewrite ensure_unset by assumption.
    unfold startup_returns in Hs.
    destruct (start_method E) as [f|]; [|discriminate].
    destruct (f (calls w)); [discriminate|]. split; reflexivity.
Qed.

(** The theorem at a backend whose [start_xtdata] returns: three calls,
    one invocation. *)
Lemma ensure_starts_once_after_success_witness :
  ensure_times (Mock.env_of (Some working_start)) 3 initial_world
  = {| xtdc_initialized := true; calls := [CStartXtdata] |}
  /\ (starts (calls (ensure_times (Mock.env_of (Some working_start)) 3
                       initial_world)) <= 1)%nat.
Proof.
  destruct (ensure_starts_once_after_success
              (Mock.env_of (Some working_start)) initial_world 2)
    as (_ & _ & H & _).
  destruct (H eq_refl eq_refl) as [H1 H2].
  split; [rewrite H1; reflexivity | exact H2].
Defined.

(** C2 (as stated) fails: with a [start_xtdata] that raises, two calls
    invoke it twice. *)
Lemma ensure_restarts_after_failure :
  starts (calls (ensure_times (Mock.env_of (Some failing_start)) 2
                   initial_world)) = 2%nat
  /\ ~ (starts (calls (ensure_times (Mock.env_of (Some failing_start)) 2
                         initial_world)) <= 1)%nat.
Proof. split; [reflexivity | vm_compute; lia]. Qed.

(** *** Running the monad *)

Lemma ensure_run (E : Env) (w : World) :
  ensure_xtdc_initialized E w = (Ok tt, ready E w).
Proof.
  unfold ready. rewrite (surjective_pairing (ensure_xtdc_initialized E w)).
  now rewrite ensure_returns.
Qed.

Lemma try_except_total {A} (body : M A) (h : exn -> A) (w : World) :
  exists a, fst (try_except body (fun e => ret (h e)) w) = Ok a.
Proof.
  unfold try_except, ret. destruct (body w) as [[a|e] w']; simpl; eauto.
Qed.

Lemma if_true {A} (c : bool) (a b : A) : c = true -> (if c then a else b) = a.
Proof. now intros ->. Qed.

Lemma if_false {A} (c : bool) (a b : A) : c = false -> (if c then a else b) = b.
Proof. now intros ->. Qed.

(** Selects the branch of [handle_call_tool] for a given tool name. *)
Ltac dispatch :=
  unfold handle_call_tool;
  repeat first
    [ rewrite if_true by (vm_compute; reflexivity)
    | rewrite if_false by (vm_compute; reflexivity) ].

(** *** Required fields *)

(** C1 (as amended): for each tool and field the specification marks
    required, a call whose [arguments] is [None], is empty or lacks the
    field returns the single item [错误: 缺少必要参数 '<field>'] and leaves
    the world as it was: no backend method is invoked, the startup
    included.  The registry lists each of these fields under the tool's
    [required]. *)
Theorem missing_required_field (E : Env) (tool field : string)
    (arguments : Arguments) (w : World) :
  In (tool, field) spec_required ->
  arg arguments field = None ->
  handle_call_tool E (lit tool) arguments w
  = (Ok [{| text := lit "错误: 缺少必要参数 '" ++ lit field ++ lit "'" |}], w)
  /\ exists t, In t handle_list_tools /\ tool_name t = lit tool
               /\ In (lit field) (required t).
Proof.
  intros Hin Harg.
  assert (pick : forall k,
             (k < length handle_list_tools)%nat ->
             tool_name (nth k handle_list_tools
                          {| tool_name := []; properties := []; required := [] |})
             = lit tool ->
             In (lit field)
                (required (nth k handle_list_tools
                          {| tool_name := []; properties := []; required := [] |})) ->
             exists t, In t handle_list_tools /\ tool_name t = lit tool
                       /\ In (lit field) (required t)).
  { intros k Hk Hn Hr. eexists. split; [apply nth_In; exact Hk|].
    split; [exact Hn | exact Hr]. }
  simpl in Hin.
  destruct Hin as [H|[H|[H|[H|[]]]]]; inversion H; subst; clear H;
    (split; [dispatch; rewrite Harg; reflexivity|]).
  - apply (pick 2%nat); [simpl; lia | reflexivity | left; reflexivity].
  - apply (pick 3%nat); [simpl; lia | reflexivity | left; reflexivity].
  - apply (pick 4%nat); [simpl; lia | reflexivity | left; reflexivity].
  - apply (pick 5%nat); [simpl; lia | reflexivity | left; reflexivity].
Qed.

Lemma missing_required_field_witness :
  handle_call_tool Mock.env (lit "get_instrument_detail") (Some []) initial_world
  = (Ok [{| text := lit "错误: 缺少必要参数 'code'" |}], initial_world).
Proof.
  destruct (missing_required_field Mock.env "get_instrument_detail" "code"
              (Some []) initial_world) as [H _].
  - simpl. left. reflexivity.
  - reflexivity.
  - exact H.
Defined.

(** C1 (as stated) fails for a field that is present but empty:
    [{"code": ""}] is passed on, the backend is asked for the detail of
    the empty code, and the answer is not the missing-parameter text. *)
Lemma empty_code_reaches_backend :
  fst (handle_call_tool Mock.env (lit "get_instrument_detail")
         (Some [(lit "code", VStr [])]) initial_world)
  <> Ok (missing_parameter "code")
  /\ calls (snd (handle_call_tool Mock.env (lit "get_instrument_detail")
                   (Some [(lit "code", VStr [])]) initial_world))
     = [CGetInstrumentDetail [] false].
Proof.
  split.
  - vm_compute. intros H. discriminate H.
  - vm_compute. reflexivity.
Qed.

(** *** The market-data handlers *)

(** The guard adds nothing to the history but a startup attempt. *)
Lemma ready_calls (E : Env) (w : World) (c : Call) :
  In c (calls (ready E w)) -> In c (calls w) \/ c = CStartXtdata.
Proof.
  unfold ready. destruct (xtdc_initialized w) eqn:H.
  - rewrite ensure_noop by assumption. now left.
  - rewrite ensure_unset by assumption.
    destruct (start_method E); simpl; [|now left].
    intros Hin. apply in_app_or in Hin as [Hin|[<-|[]]]; [now left|now right].
Qed.

Lemma fetch_run (b : Backend) (failed : pystr) (fs cs : list pystr)
    (p : pystr) (st en : option pystr) (count : option Z) (w : World) :
  fetch_market_data b failed fs cs p st en count w
  = (Ok match get_market_data b (calls w) fs cs p st en count with
        | Ok None => error_payload failed
        | Ok (Some d) => normalize_market_data d
        | Raise e => error_payload (failed ++ lit ": " ++ exn_str e)
        end,
     called w (CGetMarketData fs cs p st en count)).
Proof.
  unfold fetch_market_data, try_except, bind, invoke, ret, called.
  destruct (get_market_data b (calls w) fs cs p st en count) as [[d|]|e];
    reflexivity.
Qed.

Lemma history_run (E : Env) (b : Backend) (input : GetMarketDataInput)
    (w : World) :
  xtdata E = Some b ->
  get_history_market_data E input w
  = if is_empty (split_strip (codes input))
    then (Ok (error_payload no_valid_codes), ready E w)
    else fetch_market_data b (lit "获取历史行情数据失败")
           (parse_fields (fields input)) (split_strip (codes input))
           (period input) (Some (start_date input)) (Some (end_date input))
           None (ready E w).
Proof.
  intros Hb. unfold get_history_market_data, try_except, bind.
  rewrite ensure_run, Hb.
  destruct (is_empty (split_strip (codes input))); [reflexivity|].
  now rewrite fetch_run.
Qed.

Lemma latest_run (E : Env) (b : Backend) (input : GetMarketDataInput)
    (w : World) :
  xtdata E = Some b ->
  get_latest_market_data E input w
  = if is_empty (filter looks_like_code (split_strip (codes input)))
    then (Ok (error_payload no_valid_codes), ready E w)
    else fetch_market_data b (lit "获取最新行情数据失败")
           default_fields (filter looks_like_code (split_strip (codes input)))
           (period input) None None (Some 1) (ready E w).
Proof.
  intros Hb. unfold get_latest_market_data, try_except, bind.
  rewrite ensure_run, Hb.
  destruct (split_strip (codes input)) as [|c cs] eqn:Hcs; [reflexivity|].
  cbn [is_empty].
  destruct (is_empty (filter looks_like_code (c :: cs))); [reflexivity|].
  now rewrite fetch_run.
Qed.

Lemma full_run (E : Env) (b : Backend) (input : GetMarketDataInput)
    (w : World) :
  xtdata E = Some b ->
  get_full_market_data E input w
  = if is_empty (filter looks_like_code (split_strip (codes input)))
    then (Ok (error_payload no_valid_codes), ready E w)
    else fetch_market_data b (lit "获取历史+最新行情数据失败")
           (parse_fields (fields input))
           (filter looks_like_code (split_strip (codes input)))
           (period input) (Some (start_date input)) (Some (end_date input))
           (Some (-1)) (ready E w).
Proof.
  intros Hb. unfold get_full_market_data, try_except, bind.
  rewrite ensure_run, Hb.
  destruct (split_strip (codes input)) as [|c cs] eqn:Hcs; [reflexivity|].
  cbn [is_empty].
  destruct (is_empty (filter looks_like_code (c :: cs))); [reflexivity|].
  now rewrite fetch_run.
Qed.

Lemma is_empty_nil {A} (l : list A) : is_empty l = true <-> l = [].
Proof. destruct l; simpl; split; congruence. Qed.

Lemma is_empty_cons {A} (l : list A) : is_empty l = false <-> l <> [].
Proof. destruct l; simpl; split; congruence. Qed.

(** Every value of a converted result is itself a dict. *)
Lemma dict_set_values {V} (P : V -> Prop) (k : pystr) (v : V) (d : Dict V) :
  P v -> Forall (fun kv => P (snd kv)) d ->
  Forall (fun kv => P (snd kv)) (dict_set k v d).
Proof.
  intros Hv. induction d as [|[k' v'] d IH]; intros Hd; simpl.
  - constructor; [exact Hv|constructor].
  - inversion Hd; subst. destruct (PyStr.eqb k k').
    + constructor; assumption.
    + constructor; [assumption|now apply IH].
Qed.

Lemma normalize_values (data : MarketData) (acc : Dict Json) :
  Forall (fun kv => is_dict (snd kv)) acc ->
  Forall (fun kv => is_dict (snd kv))
    (fold_left
       (fun acc cs => dict_set (fst cs) (JDict (normalize_fields (snd cs))) acc)
       data acc).
Proof.
  revert acc. induction data as [|cs data IH]; intros acc Hacc; simpl.
  - exact Hacc.
  - apply IH. apply dict_set_values; [exact I|exact Hacc].
Qed.

Lemma Ok_inj {A} (a b : A) : Ok a = Ok b -> a = b.
Proof. intros H. now injection H. Qed.

Lemma JDict_inj (a b : Dict Json) : JDict a = JDict b -> a = b.
Proof. intros H. now injection H. Qed.

Lemma normalize_not_error (data : MarketData) (msg : pystr) :
  normalize_market_data data <> error_payload msg.
Proof.
  unfold normalize_market_data, error_payload. intros H.
  apply JDict_inj in H.
  pose proof (normalize_values data [] (Forall_nil _)) as Hall.
  rewrite H in Hall. inversion Hall as [|x l Hx _]; subst. exact Hx.
Qed.

Lemma error_payload_inj (a b : pystr) :
  error_payload a = error_payload b -> a = b.
Proof.
  unfold error_payload. intros H. apply JDict_inj in H.
  exact (f_equal (fun d => match d with
                           | (_, JStr s) :: _ => s
                           | _ => []
                           end) H).
Qed.

(** A fetch never answers with the no-valid-codes payload. *)
Lemma fetch_not_no_codes (b : Backend) (failed : pystr) (fs cs : list pystr)
    (p : pystr) (st en : option pystr) (count : option Z) (w : World) :
  hd 0%N failed <> hd 0%N no_valid_codes -> failed <> [] ->
  fst (fetch_market_data b failed fs cs p st en count w)
  <> Ok (error_payload no_valid_codes).
Proof.
  intros Hhd Hne. rewrite fetch_run. cbn [fst].
  destruct (get_market_data b (calls w) fs cs p st en count) as [[d|]|e];
    intros H; apply Ok_inj in H.
  - exact (normalize_not_error _ _ H).
  - apply error_payload_inj in H. rewrite H in Hhd. apply Hhd. reflexivity.
  - apply error_payload_inj in H. destruct failed as [|c f].
    + apply Hne. reflexivity.
    + rewrite <- H in Hhd. apply Hhd. reflexivity.
Qed.

Lemma split_strip_In (s t : pystr) :
  In t (split_strip s)
  <-> t <> [] /\ exists piece, In piece (split comma s) /\ t = strip piece.
Proof.
  unfold split_strip. rewrite filter_In, in_map_iff. split.
  - intros [[piece [Hp Hin]] Ht]. split.
    + intros ->. discriminate.
    + exists piece. now split.
  - intros [Hne [piece [Hin Hp]]]. split.
    + exists piece. now split.
    + destruct t; [contradiction|reflexivity].
Qed.

(** C4: with a backend installed, [get_history_market_data] hands every
    token of [codes] that is non-empty after trimming to
    [xtdata.get_market_data], unfiltered and with no [count], and answers
    [{error: 未提供有效的股票代码}] exactly when no token remains;
    [get_latest_market_data] and [get_full_market_data] hand over only the
    tokens that contain a dot and have at least six characters, and answer
    with that error when none passes. *)
Theorem history_codes_unfiltered (E : Env) (b : Backend)
    (input : GetMarketDataInput) (w : World) :
  xtdata E = Some b ->
  let cs := split_strip (codes input) in
  let vs := filter looks_like_code cs in
  (forall t, In t cs <->
             t <> [] /\ exists piece,
               In piece (split comma (codes input)) /\ t = strip piece)
  /\ (cs <> [] ->
      snd (get_history_market_data E input w)
      = called (ready E w)
          (CGetMarketData (parse_fields (fields input)) cs (period input)
             (Some (start_date input)) (Some (end_date input)) None))
  /\ (cs = [] ->
      get_history_market_data E input w
      = (Ok (error_payload no_valid_codes), ready E w))
  /\ (fst (get_history_market_data E input w)
      = Ok (error_payload no_valid_codes) <-> cs = [])
  /\ (vs <> [] ->
      snd (get_latest_market_data E input w)
      = called (ready E w)
          (CGetMarketData default_fields vs (period input) None None (Some 1))
      /\ snd (get_full_market_data E input w)
         = called (ready E w)
             (CGetMarketData (parse_fields (fields input)) vs (period input)
                (Some (start_date input)) (Some (end_date input))
                (Some (-1))))
  /\ (vs = [] ->
      get_latest_market_data E input w
      = (Ok (error_payload no_valid_codes), ready E w)
      /\ get_full_market_data E input w
         = (Ok (error_payload no_valid_codes), ready E w)).
Proof.
  intros Hb cs vs.
  split; [intros t; apply split_strip_In|].
  split.
  { intros Hne. rewrite (history_run E b input w Hb).
    apply is_empty_cons in Hne. fold cs. rewrite Hne, fetch_run. reflexivity. }
  split.
  { intros He. rewrite (history_run E b input w Hb).
    apply is_empty_nil in He. fold cs. now rewrite He. }
  split.
  { rewrite (history_run E b input w Hb). fold cs.
    destruct (is_empty cs) eqn:He.
    - apply is_empty_nil in He. split; [intros _; exact He|reflexivity].
    - split.
      + intros H. exfalso. revert H. apply fetch_not_no_codes.
        * vm_compute. discriminate.
        * vm_compute. discriminate.
      + intros Hc. apply is_empty_nil in Hc. congruence. }
  split.
  { intros Hne. apply is_empty_cons in Hne.
    rewrite (latest_run E b input w Hb), (full_run E b input w Hb).
    fold cs. fold vs. rewrite Hne, !fetch_run. split; reflexivity. }
  { intros He. apply is_empty_nil in He.
    rewrite (latest_run E b input w Hb), (full_run E b input w Hb).
    fold cs. fold vs. rewrite He. split; reflexivity. }
Qed.

(** The theorem on [MockXtdata]: the token [BAD] reaches the backend
    through the history handler and is dropped by the latest one. *)
Lemma history_codes_unfiltered_witness :
  calls (snd (get_history_market_data Mock.env
                {| codes := lit "000001.SZ, BAD ,"; period := lit "1d";
                   start_date := []; end_date := []; fields := [] |}
                initial_world))
  = [CGetMarketData default_fields [lit "000001.SZ"; lit "BAD"] (lit "1d")
       (Some []) (Some []) None]
  /\ calls (snd (get_latest_market_data Mock.env
                   {| codes := lit "000001.SZ, BAD ,"; period := lit "1d";
                      start_date := []; end_date := []; fields := [] |}
                   initial_world))
     = [CGetMarketData default_fields [lit "000001.SZ"] (lit "1d")
          None None (Some 1)].
Proof.
  destruct (history_codes_unfiltered Mock.env Mock.MockXtdata
              {| codes := lit "000001.SZ, BAD ,"; period := lit "1d";
                 start_date := []; end_date := []; fields := [] |}
              initial_world eq_refl) as (_ & H1 & _ & _ & H2 & _).
  split.
  - rewrite H1; [reflexivity | vm_compute; discriminate].
  - destruct H2 as [H2 _]; [vm_compute; discriminate|].
    rewrite H2. reflexivity.
Defined.

Lemma looks_like_code_spec (c : pystr) :
  looks_like_code c = true <-> contains dot c = true /\ (6 <= length c)%nat.
Proof.
  unfold looks_like_code. rewrite andb_true_iff, Nat.leb_le. reflexivity.
Qed.

(** C5: through the dispatcher, with a backend installed,
    [get_latest_market_data] asks [xtdata.get_market_data] for the five
    fields open, high, low, close, volume with [count=1] and the codes
    that survive the filter, whatever else [arguments] holds; when no code
    survives it answers [{error: 未提供有效的股票代码}] and the data method
    is not called (the guard may have attempted the startup, nothing
    else).  Of ["000001.SZ,BAD"] only ["000001.SZ"] survives. *)
Theorem latest_fixed_fields_and_count (E : Env) (b : Backend)
    (arguments : Arguments) (s p : pystr) (w : World) :
  xtdata E = Some b ->
  arg arguments "codes" = Some (VStr s) ->
  arg_get arguments "period" "1d" = VStr p ->
  let vs := filter looks_like_code (split_strip s) in
  (vs <> [] ->
   exists j,
     handle_call_tool E (lit "get_latest_market_data") arguments w
     = (Ok (content E j),
        called (ready E w)
          (CGetMarketData
             [lit "open"; lit "high"; lit "low"; lit "close"; lit "volume"]
             vs p None None (Some 1))))
  /\ (vs = [] ->
      handle_call_tool E (lit "get_latest_market_data") arguments w
      = (Ok (content E (error_payload no_valid_codes)), ready E w))
  /\ (forall c, In c (calls (ready E w)) ->
                In c (calls w) \/ c = CStartXtdata)
  /\ (forall c, In c vs <->
                In c (split_strip s)
                /\ contains dot c = true /\ (6 <= length c)%nat)
  /\ filter looks_like_code (split_strip (lit "000001.SZ,BAD"))
     = [lit "000001.SZ"]
  /\ filter looks_like_code (split_strip (lit "BAD,X.Y")) = [].
Proof.
  intros Hb Hc Hp vs.
  assert (Hrun :
    handle_call_tool E (lit "get_latest_market_data") arguments w
    = match get_latest_market_data E
              {| codes := s; period := p; start_date := [];
                 end_date := []; fields := [] |} w with
      | (Ok result, w') => (Ok (content E result), w')
      | (Raise e, w') => (Raise e, w')
      end).
  { dispatch. rewrite Hc. unfold bind, lift, ret. cbn [split_receiver].
    rewrite Hp. reflexivity. }
  rewrite Hrun, (latest_run E b _ w Hb). cbn [codes period]. fold vs.
  split.
  { intros Hne. apply is_empty_cons in Hne. rewrite Hne, fetch_run.
    eexists. reflexivity. }
  split.
  { intros He. apply is_empty_nil in He. rewrite He. reflexivity. }
  split; [apply ready_calls|].
  split.
  { intros c. unfold vs. rewrite filter_In, looks_like_code_spec. reflexivity. }
  split; vm_compute; reflexivity.
Qed.

Lemma latest_fixed_fields_and_count_witness :
  exists j,
    handle_call_tool Mock.env (lit "get_latest_market_data")
      (Some [(lit "codes", VStr (lit "000001.SZ,BAD"));
             (lit "fields", VStr (lit "amount"))]) initial_world
    = (Ok (content Mock.env j),
       {| xtdc_initialized := true;
          calls := [CGetMarketData default_fields [lit "000001.SZ"]
                      (lit "1d") None None (Some 1)] |}).
Proof.
  destruct (latest_fixed_fields_and_count Mock.env Mock.MockXtdata
              (Some [(lit "codes", VStr (lit "000001.SZ,BAD"));
                     (lit "fields", VStr (lit "amount"))])
              (lit "000001.SZ,BAD") (lit "1d") initial_world
              eq_refl eq_refl eq_refl) as (H & _).
  destruct H as [j Hj]; [vm_compute; discriminate|].
  exists j. rewrite Hj. reflexivity.
Defined.

(** *** Trading dates *)

Lemma recent_tail {A} (l : list A) :
  recent l = skipn (length l - 30) l.
Proof.
  unfold recent. destruct (30 <? length l)%nat eqn:H; [reflexivity|].
  apply Nat.ltb_ge in H.
  replace (length l - 30)%nat with 0%nat by lia. reflexivity.
Qed.

Lemma recent_length {A} (l : list A) :
  length (recent l) = Nat.min 30 (length l).
Proof. rewrite recent_tail, length_skipn. lia. Qed.

Lemma recent_suffix {A} (l : list A) : exists older, l = older ++ recent l.
Proof.
  exists (firstn (length l - 30) l). rewrite recent_tail.
  symmetry. apply firstn_skipn.
Qed.

Lemma format_dates_each (ds : list DateLike) (fs : list pystr) :
  format_dates ds = Ok fs <-> Forall2 (fun d f => format_date d = Ok f) ds fs.
Proof.
  revert fs. induction ds as [|d ds IH]; intros fs; simpl.
  - split.
    + intros H. apply Ok_inj in H. subst. constructor.
    + intros H. inversion H. reflexivity.
  - destruct (format_date d) as [f|e] eqn:Hd.
    + destruct (format_dates ds) as [fs'|e] eqn:Hds.
      * split.
        -- intros H. apply Ok_inj in H. subst. constructor; [exact Hd|].
           apply IH. reflexivity.
        -- intros H. inversion H as [|? f0 ? fs0 Hf Hrest]; subst.
           rewrite Hd in Hf. apply Ok_inj in Hf. subst.
           apply IH in Hrest. apply Ok_inj in Hrest. subst. reflexivity.
      * split; [discriminate|].
        intros H. inversion H as [|? f0 ? fs0 Hf Hrest]; subst.
        apply IH in Hrest. discriminate.
    + split; [discriminate|].
      intros H. inversion H as [|? f0 ? fs0 Hf Hrest]; subst.
      rewrite Hd in Hf. discriminate.
Qed.

Lemma formats_ok (d : DateLike) :
  formats d = true -> exists f, format_date d = Ok f.
Proof.
  destruct d as [z|b|[[f|e]|] s]; simpl; intros H; eauto.
  - destruct (length (of_Z z) =? 8)%nat; eauto.
  - rewrite H. eauto.
Qed.

Lemma format_dates_ok (ds : list DateLike) :
  forallb formats ds = true -> exists fs, format_dates ds = Ok fs.
Proof.
  induction ds as [|d ds IH]; simpl; intros H; [eauto|].
  apply andb_true_iff in H as [Hd Hds].
  destruct (formats_ok d Hd) as [f Hf]. destruct (IH Hds) as [fs Hfs].
  rewrite Hf, Hfs. eauto.
Qed.

Lemma trading_dates_run (E : Env) (b : Backend) (input : GetTradingDatesInput)
    (w : World) :
  xtdata E = Some b ->
  fst (get_trading_dates E input w)
  = Ok match get_trading_dates_ b (calls (ready E w)) (market input) with
       | Ok None => [no_trading_dates]
       | Ok (Some ds) =>
           if (length ds =? 0)%nat then [no_trading_dates]
           else match format_dates (recent ds) with
                | Ok fs => fs
                | Raise e => [lit "错误: " ++ exn_str e]
                end
       | Raise e => [lit "错误: " ++ exn_str e]
       end.
Proof.
  intros Hb. unfold get_trading_dates, try_except, bind, invoke, lift, ret.
  rewrite ensure_run, Hb.
  destruct (get_trading_dates_ b (calls (ready E w)) (market input))
    as [[ds|]|e]; [|reflexivity|reflexivity].
  destruct (length ds =? 0)%nat; [reflexivity|].
  destruct (format_dates (recent ds)); reflexivity.
Qed.

Lemma trading_dates_at_most_30 (E : Env) (input : GetTradingDatesInput)
    (w : World) :
  exists out, fst (get_trading_dates E input w) = Ok out
              /\ (length out <= 30)%nat.
Proof.
  destruct (xtdata E) as [b|] eqn:Hb.
  - rewrite (trading_dates_run E b input w Hb). eexists. split; [reflexivity|].
    destruct (get_trading_dates_ b (calls (ready E w)) (market input))
      as [[ds|]|e]; [|simpl; lia|simpl; lia].
    destruct (length ds =? 0)%nat; [simpl; lia|].
    destruct (format_dates (recent ds)) as [fs|e] eqn:Hf; [|simpl; lia].
    apply format_dates_each, Forall2_length in Hf.
    rewrite <- Hf, recent_length. lia.
  - unfold get_trading_dates, try_except, bind, ret.
    rewrite ensure_run, Hb. eexists. split; [reflexivity|simpl; lia].
Qed.

(** The 8-character test is on [str(date)], sign included. *)
Example format_date_examples :
  format_date (DInt 20230105) = Ok (lit "2023-01-05")
  /\ format_date (DInt 99999999) = Ok (lit "9999-99-99")
  /\ format_date (DInt 2023010) = Ok (lit "2023010")
  /\ format_date (DInt 202301050) = Ok (lit "202301050")
  /\ format_date (DInt (-1234567)) = Ok (lit "-123-45-67")
  /\ format_date (DBool true) = Ok (lit "True")
  /\ format_date (DObj None (lit "2023-01-01")) = Ok (lit "2023-01-01").
Proof. repeat split; vm_compute; reflexivity. Qed.

(** C6 (as amended): [get_trading_dates] always returns at most 30
    entries.  When the backend provides a non-empty sequence whose last 30
    entries format without error, the result is exactly those entries,
    formatted one by one in their order (all of them when there are fewer
    than 30); an empty sequence yields the single entry
    [未找到交易日期数据].  An [int] whose [str] has 8 characters becomes
    YYYY-MM-DD, any other [int] its [str]; another object goes through its
    [strftime] when it has one, and otherwise through [str]. *)
Theorem trading_dates_recent_tail (E : Env) (b : Backend)
    (input : GetTradingDatesInput) (w : World) (ds : list DateLike) :
  xtdata E = Some b ->
  get_trading_dates_ b (calls (ready E w)) (market input) = Ok (Some ds) ->
  (forall E' input' w',
      exists out, fst (get_trading_dates E' input' w') = Ok out
                  /\ (length out <= 30)%nat)
  /\ ((exists older, ds = older ++ recent ds)
      /\ length (recent ds) = Nat.min 30 (length ds))
  /\ (ds = [] -> fst (get_trading_dates E input w) = Ok [no_trading_dates])
  /\ (ds <> [] ->
      forall fs, format_dates (recent ds) = Ok fs ->
                 fst (get_trading_dates E input w) = Ok fs
                 /\ Forall2 (fun d f => format_date d = Ok f) (recent ds) fs)
  /\ (forallb formats (recent ds) = true ->
      exists fs, format_dates (recent ds) = Ok fs)
  /\ (forall z, length (of_Z z) = 8%nat ->
                format_date (DInt z)
                = Ok (firstn 4 (of_Z z) ++ lit "-"
                      ++ firstn 2 (skipn 4 (of_Z z)) ++ lit "-"
                      ++ skipn 6 (of_Z z)))
  /\ format_date (DInt 20230105) = Ok (lit "2023-01-05")
  /\ (forall z, length (of_Z z) <> 8%nat -> format_date (DInt z) = Ok (of_Z z))
  /\ (forall f s, format_date (DObj (Some (Ok f)) s) = Ok f)
  /\ (forall s, format_date (DObj None s) = Ok s).
Proof.
  intros Hb Hds.
  split; [intros; apply trading_dates_at_most_30|].
  split; [split; [apply recent_suffix|apply recent_length]|].
  split.
  { intros ->. rewrite (trading_dates_run E b input w Hb), Hds. reflexivity. }
  split.
  { intros Hne fs Hfs.
    rewrite (trading_dates_run E b input w Hb), Hds.
    destruct ds as [|d ds']; [contradiction|].
    cbn [length Nat.eqb]. rewrite Hfs.
    split; [reflexivity|apply format_dates_each; exact Hfs]. }
  split; [apply format_dates_ok|].
  split.
  { intros z Hz. unfold format_date. apply Nat.eqb_eq in Hz. rewrite Hz.
    reflexivity. }
  split; [vm_compute; reflexivity|].
  split.
  { intros z Hz. unfold format_date. apply Nat.eqb_neq in Hz. rewrite Hz.
    reflexivity. }
  split; reflexivity.
Qed.

Lemma trading_dates_recent_tail_witness :
  fst (get_trading_dates
         (Mock.env_of (Some (with_trading_dates
            (Some (repeat (DInt 20230104) 29
                   ++ [DInt 20230105; DInt 7;
                       DObj (Some (Ok (lit "2023-01-09"))) (lit "x")])))))
         {| market := lit "SH" |} initial_world)
  = Ok (repeat (lit "2023-01-04") 27
        ++ [lit "2023-01-05"; lit "7"; lit "2023-01-09"]).
Proof.
  destruct (trading_dates_recent_tail
              (Mock.env_of (Some (with_trading_dates
                 (Some (repeat (DInt 20230104) 29
                        ++ [DInt 20230105; DInt 7;
                            DObj (Some (Ok (lit "2023-01-09"))) (lit "x")])))))
              (with_trading_dates
                 (Some (repeat (DInt 20230104) 29
                        ++ [DInt 20230105; DInt 7;
                            DObj (Some (Ok (lit "2023-01-09"))) (lit "x")])))
              {| market := lit "SH" |} initial_world
              (repeat (DInt 20230104) 29
               ++ [DInt 20230105; DInt 7;
                   DObj (Some (Ok (lit "2023-01-09"))) (lit "x")])
              eq_refl eq_refl) as (_ & _ & _ & H & _).
  destruct (H ltac:(vm_compute; discriminate)
              (repeat (lit "2023-01-04") 27
               ++ [lit "2023-01-05"; lit "7"; lit "2023-01-09"])
              ltac:(vm_compute; reflexivity)) as [Hr _].
  exact Hr.
Defined.

(** C6 (as stated) fails on the empty sequence: its tail is empty, the
    handler returns one entry. *)
Lemma empty_trading_dates_message :
  fst (get_trading_dates (Mock.env_of (Some (with_trading_dates (Some []))))
         {| market := lit "SH" |} initial_world)
  = Ok [lit "未找到交易日期数据"]
  /\ format_dates (recent []) = Ok []
  /\ fst (get_trading_dates (Mock.env_of (Some (with_trading_dates (Some []))))
            {| market := lit "SH" |} initial_world)
     <> format_dates (recent []).
Proof.
  split; [vm_compute; reflexivity|].
  split; [reflexivity|].
  vm_compute. intros H. discriminate H.
Qed.

(** *** The panel controller *)

Lemma timed_call_run (E : Env) (name : pystr)
    (f : History -> list Panel -> Result pystr) (panels : list Panel)
    (w : World) :
  timed_call E name f panels w
  = (match f (calls w) panels with
     | Ok r => Ok (result_entry E r w)
     | Raise e => Raise e
     end,
     called w (CPanelMethod name panels)).
Proof.
  unfold timed_call, invoke, called, result_entry.
  destruct (f (calls w) panels); reflexivity.
Qed.

Lemma try_methods_step (E : Env) (b : Backend) (panels : list Panel)
    (n : pystr) (rest : list pystr) (mr : Dict Json)
    (f : History -> list Panel -> Result pystr) (w : World) :
  panel_method b n = Some f ->
  try_methods E b panels (n :: rest) mr w
  = match f (calls w) panels with
    | Ok r =>
        (Ok (dict_set n (result_entry E r w) mr),
         called w (CPanelMethod n panels))
    | Raise e =>
        try_methods E b panels rest (dict_set n (error_entry e) mr)
          (called w (CPanelMethod n panels))
    end.
Proof.
  intros Hf. cbn [try_methods]. rewrite Hf.
  unfold bind, try_except, ret. rewrite timed_call_run.
  destruct (f (calls w) panels); reflexivity.
Qed.

Lemma try_methods_skip (E : Env) (b : Backend) (panels : list Panel)
    (pre rest : list pystr) (mr : Dict Json) (w : World) :
  (forall m, In m pre -> panel_method b m = None) ->
  try_methods E b panels (pre ++ rest) mr w
  = try_methods E b panels rest mr w.
Proof.
  induction pre as [|m pre IH]; intros Hpre; [reflexivity|].
  cbn [app try_methods]. rewrite (Hpre m (or_introl eq_refl)).
  apply IH. intros m' Hm'. apply Hpre. now right.
Qed.

Lemma try_methods_none (E : Env) (b : Backend) (panels : list Panel)
    (names : list pystr) (mr : Dict Json) (w : World) :
  (forall m, In m names -> panel_method b m = None) ->
  try_methods E b panels names mr w
  = (Ok (dict_set (lit "no_method_found") (JBool true) mr), w).
Proof.
  intros H. rewrite <- (app_nil_r names).
  rewrite (try_methods_skip E b panels names [] mr w H). reflexivity.
Qed.

(** The loop always comes to an end with a result. *)
Lemma try_methods_returns (E : Env) (b : Backend) (panels : list Panel)
    (names : list pystr) (mr : Dict Json) (w : World) :
  exists mr' w', try_methods E b panels names mr w = (Ok mr', w').
Proof.
  revert mr w. induction names as [|n names IH]; intros mr w.
  - cbn [try_methods]. unfold ret. eauto.
  - destruct (panel_method b n) as [f|] eqn:Hf.
    + rewrite (try_methods_step E b panels n names mr f w Hf).
      destruct (f (calls w) panels); [eauto|apply IH].
    + cbn [try_methods]. rewrite Hf. apply IH.
Qed.

Lemma apply_panel_control_returns (E : Env) (b : Backend)
    (panels : list Panel) (w : World) :
  exists mr w', apply_panel_control E b panels w = (Ok mr, w').
Proof.
  unfold apply_panel_control.
  destruct (panel_method b primary_method) as [f|].
  - unfold try_except, bind, ret. rewrite timed_call_run.
    destruct (f (calls w) panels); eauto.
  - apply try_methods_returns.
Qed.

Lemma dict_get_set_other {V} (k k' : pystr) (v : V) (d : Dict V) :
  k <> k' -> dict_get k (dict_set k' v d) = dict_get k d.
Proof.
  intros Hne. induction d as [|[k0 v0] d IH]; simpl.
  - apply eqb_neq in Hne. now rewrite Hne.
  - destruct (PyStr.eqb k' k0) eqn:H0; simpl.
    + apply eqb_eq in H0. subst k0.
      apply eqb_neq in Hne. now rewrite Hne.
    + rewrite IH. reflexivity.
Qed.

Lemma refresh_run (b : Backend) (mr : Dict Json) (w : World) :
  exists mr' w',
    refresh b mr w = (Ok mr', w')
    /\ forall k, k <> lit "refresh_ui" -> dict_get k mr' = dict_get k mr.
Proof.
  unfold refresh, try_except, bind, invoke, ret.
  destruct (refresh_ui b) as [f|].
  - destruct (f (calls w)); do 2 eexists; (split; [reflexivity|]);
      intros k Hk; now apply dict_get_set_other.
  - do 2 eexists. split; [reflexivity|]. reflexivity.
Qed.

Lemma panels_for_stocks (E : Env) (b : Backend) (per : pystr)
    (cfg : IndicatorConfig) (stock_list : list pystr) :
  map panel_stock (panels_for E b per cfg stock_list) = stock_list.
Proof.
  unfold panels_for. rewrite !map_map.
  induction stock_list as [|s l IH]; [reflexivity|].
  cbn [map]. rewrite IH. f_equal.
  unfold build_panel. destruct (UIPanel b s per [cfg]) as [[? ?]|e]; reflexivity.
Qed.

(** What the two handlers make of the panels once the parameters are
    parsed: the success payload, with the method results of
    [apply_panel_control] in it. *)
Lemma show_panels_run (E : Env) (b : Backend) (per : pystr)
    (cfg : IndicatorConfig) (stock_list : list pystr) (w : World) :
  exists mr mr' w1 w2,
    apply_panel_control E b (panels_for E b per cfg stock_list) w = (Ok mr, w1)
    /\ show_panels E b per cfg stock_list w
       = (Ok (map snd (map (build_panel E b per cfg) stock_list), mr'), w2)
    /\ forall k, k <> lit "refresh_ui" -> dict_get k mr' = dict_get k mr.
Proof.
  destruct (apply_panel_control_returns E b
              (panels_for E b per cfg stock_list) w) as (mr & w1 & Ha).
  destruct (refresh_run b mr w1) as (mr' & w2 & Hr & Hk).
  exists mr, mr', w1, w2. split; [exact Ha|]. split; [|exact Hk].
  unfold show_panels, bind, ret. fold (panels_for E b per cfg stock_list).
  rewrite Ha, Hr. reflexivity.
Qed.

Lemma chart_panel_run (E : Env) (b : Backend) (input : CreateChartPanelInput)
    (ps : list ParamVal) (w : World) :
  xtdata E = Some b ->
  split_strip (cp_codes input) <> [] ->
  parse_indicator_params E (split_strip (params input)) = Ok ps ->
  exists j mr mr' w1 w2,
    create_chart_panel E input w = (Ok j, w2)
    /\ json_field "success" j = Some (JBool true)
    /\ apply_panel_control E b
         (panels_for E b (cp_period input)
            (chart_indicator_config (indicators input) ps)
            (split_strip (cp_codes input)))
         (ready E w) = (Ok mr, w1)
    /\ method_results_of j = Some (JDict mr')
    /\ forall k, k <> lit "refresh_ui" -> dict_get k mr' = dict_get k mr.
Proof.
  intros Hb Hne Hps.
  destruct (show_panels_run E b (cp_period input)
              (chart_indicator_config (indicators input) ps)
              (split_strip (cp_codes input)) (ready E w))
    as (mr & mr' & w1 & w2 & Ha & Hs & Hk).
  eexists _, mr, mr', w1, w2.
  split; [|split; [|split; [exact Ha|split; [|exact Hk]]]].
  - unfold create_chart_panel, try_except, bind, lift, ret.
    rewrite ensure_run, Hb. apply is_empty_cons in Hne. rewrite Hne, Hps, Hs.
    cbn [fst snd]. reflexivity.
  - reflexivity.
  - reflexivity.
Qed.

Lemma custom_layout_run (E : Env) (b : Backend)
    (input : CreateCustomLayoutInput) (vs : list ParamVal) (w : World) :
  xtdata E = Some b ->
  split_strip (cl_codes input) <> [] ->
  parse_param_values E (split comma (param_values input)) = Ok vs ->
  exists j mr mr' w1 w2,
    create_custom_layout E input w = (Ok j, w2)
    /\ json_field "success" j = Some (JBool true)
    /\ apply_panel_control E b
         (panels_for E b (cl_period input)
            {| ic_name := indicator_name input;
               ic_params :=
                 layout_indicator_params (split_strip (param_names input)) vs |}
            (split_strip (cl_codes input)))
         (ready E w) = (Ok mr, w1)
    /\ method_results_of j = Some (JDict mr')
    /\ forall k, k <> lit "refresh_ui" -> dict_get k mr' = dict_get k mr.
Proof.
  intros Hb Hne Hvs.
  destruct (show_panels_run E b (cl_period input)
              {| ic_name := indicator_name input;
                 ic_params :=
                   layout_indicator_params (split_strip (param_names input)) vs |}
              (split_strip (cl_codes input)) (ready E w))
    as (mr & mr' & w1 & w2 & Ha & Hs & Hk).
  eexists _, mr, mr', w1, w2.
  split; [|split; [|split; [exact Ha|split; [|exact Hk]]]].
  - unfold create_custom_layout, try_except, bind, lift, ret.
    rewrite ensure_run, Hb. apply is_empty_cons in Hne. rewrite Hne, Hvs, Hs.
    cbn [fst snd]. reflexivity.
  - reflexivity.
  - reflexivity.
Qed.

Lemma possible_not_primary (n : pystr) :
  In n possible_methods -> PyStr.eqb n primary_method = false.
Proof.
  intros [<-|[<-|[<-|[<-|[]]]]]; vm_compute; reflexivity.
Qed.

(** C7 (as amended): when [xtdata] has no [apply_ui_panel_control], the
    names apply_panel_control, create_panel, show_panel, display_panel are
    tried in this order.  The first one present is invoked with the full
    panel sequence; when it returns, the attempt is recorded under its name
    and the loop stops there; when it raises, the error is recorded under
    its name and the loop goes on with the names after it.  When none of
    the names is present, [no_method_found] is recorded and nothing is
    called.  In each case [create_chart_panel] and [create_custom_layout],
    given at least one stock code and parameters that parse, build one
    panel per stock, return a payload with [success: true] and carry these
    records in its [method_results]. *)
Theorem panel_fallback_until_success (E : Env) (b : Backend) (w : World) :
  xtdata E = Some b ->
  panel_method b primary_method = None ->
  possible_methods
  = [lit "apply_panel_control"; lit "create_panel";
     lit "show_panel"; lit "display_panel"]
  /\ (forall panels w0,
         ((forall m, In m possible_methods -> panel_method b m = None) ->
          apply_panel_control E b panels w0
          = (Ok [(primary_method, not_exists_entry);
                 (lit "no_method_found", JBool true)], w0))
         /\ (forall pre n post f,
                possible_methods = pre ++ n :: post ->
                (forall m, In m pre -> panel_method b m = None) ->
                panel_method b n = Some f ->
                match f (calls w0) panels with
                | Ok r =>
                    apply_panel_control E b panels w0
                    = (Ok [(primary_method, not_exists_entry);
                           (n, result_entry E r w0)],
                       called w0 (CPanelMethod n panels))
                | Raise e =>
                    apply_panel_control E b panels w0
                    = try_methods E b panels post
                        [(primary_method, not_exists_entry);
                         (n, error_entry e)]
                        (called w0 (CPanelMethod n panels))
                end))
  /\ (forall input ps,
         split_strip (cp_codes input) <> [] ->
         parse_indicator_params E (split_strip (params input)) = Ok ps ->
         let panels :=
           panels_for E b (cp_period input)
             (chart_indicator_config (indicators input) ps)
             (split_strip (cp_codes input)) in
         map panel_stock panels = split_strip (cp_codes input)
         /\ exists j mr mr' w1 w2,
             create_chart_panel E input w = (Ok j, w2)
             /\ json_field "success" j = Some (JBool true)
             /\ apply_panel_control E b panels (ready E w) = (Ok mr, w1)
             /\ method_results_of j = Some (JDict mr')
             /\ forall k, k <> lit "refresh_ui" ->
                          dict_get k mr' = dict_get k mr)
  /\ (forall input vs,
         split_strip (cl_codes input) <> [] ->
         parse_param_values E (split comma (param_values input)) = Ok vs ->
         let panels :=
           panels_for E b (cl_period input)
             {| ic_name := indicator_name input;
                ic_params :=
                  layout_indicator_params
                    (split_strip (param_names input)) vs |}
             (split_strip (cl_codes input)) in
         map panel_stock panels = split_strip (cl_codes input)
         /\ exists j mr mr' w1 w2,
             create_custom_layout E input w = (Ok j, w2)
             /\ json_field "success" j = Some (JBool true)
             /\ apply_panel_control E b panels (ready E w) = (Ok mr, w1)
             /\ method_results_of j = Some (JDict mr')
             /\ forall k, k <> lit "refresh_ui" ->
                          dict_get k mr' = dict_get k mr).
Proof.
  intros Hb Hprim.
  split; [reflexivity|].
  split.
  { intros panels w0. unfold apply_panel_control. rewrite Hprim. split.
    - intros Hnone.
      rewrite (try_methods_none E b panels possible_methods _ w0 Hnone).
      reflexivity.
    - intros pre n post f Hsplit Hpre Hn.
      assert (Hin : In n possible_methods).
      { rewrite Hsplit. apply in_or_app. right. left. reflexivity. }
      apply possible_not_primary in Hin.
      rewrite Hsplit, (try_methods_skip E b panels pre (n :: post) _ w0 Hpre).
      rewrite (try_methods_step E b panels n post _ f w0 Hn).
      destruct (f (calls w0) panels) as [r|e];
        cbn [dict_set]; rewrite Hin; reflexivity. }
  split.
  { intros input ps Hne Hps panels.
    split; [apply panels_for_stocks|].
    exact (chart_panel_run E b input ps w Hb Hne Hps). }
  { intros input vs Hne Hvs panels.
    split; [apply panels_for_stocks|].
    exact (custom_layout_run E b input vs w Hb Hne Hvs). }
Qed.

(** The theorem where only [show_panel] is present: it alone is called,
    and the payload says [success: true]. *)
Lemma panel_fallback_until_success_witness :
  apply_panel_control
    (Mock.env_of (Some (with_panel_methods [(lit "show_panel", Ok (lit "None"))])))
    (with_panel_methods [(lit "show_panel", Ok (lit "None"))])
    [PanelObj (lit "000001.SZ") (lit "1d") []] initial_world
  = (Ok [(lit "apply_ui_panel_control", JDict [(lit "exists", JBool false)]);
         (lit "show_panel",
          JDict [(lit "result", JStr (lit "None"));
                 (lit "time_taken", JFloat 0)])],
     {| xtdc_initialized := false;
        calls := [CPanelMethod (lit "show_panel")
                    [PanelObj (lit "000001.SZ") (lit "1d") []]] |}).
Proof.
  destruct (panel_fallback_until_success
              (Mock.env_of (Some (with_panel_methods
                                    [(lit "show_panel", Ok (lit "None"))])))
              (with_panel_methods [(lit "show_panel", Ok (lit "None"))])
              initial_world eq_refl eq_refl) as (_ & H & _).
  destruct (H [PanelObj (lit "000001.SZ") (lit "1d") []] initial_world)
    as [_ H2].
  pose proof (H2 [lit "apply_panel_control"; lit "create_panel"]
                 (lit "show_panel") [lit "display_panel"]
                 (fun _ _ => Ok (lit "None")) eq_refl
                 ltac:(intros m [<-|[<-|[]]]; reflexivity) eq_refl) as H3.
  vm_compute in H3. vm_compute. exact H3.
Defined.

(** C7 (as stated) fails: with [create_panel] present but raising and
    [show_panel] present, the controller does not stop at the first name
    present; it goes on and calls [show_panel] as well. *)
Lemma fallback_goes_on_after_error :
  panel_calls
    (calls (snd (create_chart_panel
                   (Mock.env_of (Some (with_panel_methods
                      [(lit "create_panel",
                        Raise {| exn_class := TypeError;
                                 exn_str := lit "bad panels" |});
                       (lit "show_panel", Ok (lit "None"))])))
                   {| cp_codes := lit "000001.SZ"; cp_period := lit "1d";
                      indicators := lit "ma"; params := lit "5,10,20" |}
                   initial_world)))
  = [lit "create_panel"; lit "show_panel"]
  /\ panel_calls
       (calls (snd (create_chart_panel
                      (Mock.env_of (Some (with_panel_methods
                         [(lit "create_panel",
                           Raise {| exn_class := TypeError;
                                    exn_str := lit "bad panels" |});
                          (lit "show_panel", Ok (lit "None"))])))
                      {| cp_codes := lit "000001.SZ"; cp_period := lit "1d";
                         indicators := lit "ma"; params := lit "5,10,20" |}
                      initial_world)))
     <> [lit "create_panel"].
Proof.
  split; [vm_compute; reflexivity|].
  vm_compute. intros H. discriminate H.
Qed.

(** *** Parameters of a custom layout *)

Lemma contains_rev (c : char) (s : pystr) : contains c (rev s) = contains c s.
Proof.
  unfold contains. induction s as [|a s IH]; [reflexivity|].
  cbn [rev]. rewrite existsb_app, IH. cbn [existsb].
  rewrite orb_false_r. apply orb_comm.
Qed.

Lemma contains_lstrip (c : char) (s : pystr) :
  is_space c = false -> contains c (lstrip s) = contains c s.
Proof.
  intros Hc. induction s as [|a s IH]; [reflexivity|].
  cbn [lstrip]. destruct (is_space a) eqn:Ha; [|reflexivity].
  rewrite IH. unfold contains. cbn [existsb].
  destruct (char_eqb c a) eqn:Hca; [|reflexivity].
  unfold char_eqb in Hca. apply N.eqb_eq in Hca. congruence.
Qed.

Lemma contains_strip (c : char) (s : pystr) :
  is_space c = false -> contains c (strip s) = contains c s.
Proof.
  intros Hc. unfold strip.
  now rewrite contains_rev, contains_lstrip, contains_rev, contains_lstrip.
Qed.





(** The built-ins of the concrete environment meet the assumptions. *)
Lemma mock_int_class (s : pystr) (e : exn) :
  Mock.int_ s = Raise e -> exn_class e = ValueError.
Proof.
  unfold Mock.int_. destruct (Mock.signed s) as [sg body].
  destruct (Mock.unsigned body); [discriminate|].
  intros H. injection H as <-. reflexivity.
Qed.

Lemma mock_float_class (s : pystr) (e : exn) :
  Mock.float_ s = Raise e -> exn_class e = ValueError.
Proof.
  unfold Mock.float_. destruct (Mock.signed s) as [sg body].
  destruct (Mock.break_dot body) as [ip [fp|]].
  - destruct ip, fp;
      repeat match goal with
             | |- context [match ?x with Some _ => _ | None => _ end] =>
                 destruct x
             end;
      try discriminate; intros H; injection H as <-; reflexivity.
  - destruct (Mock.unsigned ip); [discriminate|].
    intros H. injection H as <-. reflexivity.
Qed.




(** *** Default codes *)


(** End to end on a backend that lists eight codes: called without
    [codes], [create_chart_panel] shows the first five. *)
Lemma default_codes_first_five :
  map (fun c => match c with
                | CPanelMethod _ panels => map panel_stock panels
                | _ => []
                end)
      (calls (snd (handle_call_tool
                     (Mock.env_of (Some (with_stock_list
                        (Ok (Some (a_list
                           [lit "c1.SZ"; lit "c2.SZ"; lit "c3.SZ"; lit "c4.SZ";
                            lit "c5.SZ"; lit "c6.SZ"; lit "c7.SZ";
                            lit "c8.SZ"]))))))
                     (lit "create_chart_panel") None initial_world)))
  = [[]; [lit "c1.SZ"; lit "c2.SZ"; lit "c3.SZ"; lit "c4.SZ"; lit "c5.SZ"]].
Proof. vm_compute. reflexivity. Qed.

(** *** The dispatcher returns or raises *)

































(** *** One content item *)




(* ================================================================== *)
(** ** Further properties of the handlers *)
(* ================================================================== *)

(** *** Dicts built key by key *)

Lemma dict_set_fresh {V} (k : pystr) (v : V) (d : Dict V) :
  ~ In k (keys d) -> dict_set k v d = d ++ [(k, v)].
Proof.
  induction d as [|[k' v'] d IH]; intros Hk; [reflexivity|].
  cbn [dict_set app]. destruct (PyStr.eqb k k') eqn:He.
  - apply eqb_eq in He. subst. exfalso. apply Hk. left. reflexivity.
  - rewrite IH; [reflexivity|]. intros Hin. apply Hk. right. exact Hin.
Qed.

Lemma fold_dict_set_distinct {A V} (key : A -> pystr) (val : A -> V)
    (l : list A) (acc : Dict V) :
  NoDup (keys acc ++ map key l) ->
  fold_left (fun d x => dict_set (key x) (val x) d) l acc
  = acc ++ map (fun x => (key x, val x)) l.
Proof.
  revert acc. induction l as [|x l IH]; intros acc Hnd.
  - cbn. now rewrite app_nil_r.
  - cbn [fold_left map]. cbn [map] in Hnd.
    assert (Hfresh : ~ In (key x) (keys acc)).
    { apply NoDup_remove_2 in Hnd. intros Hin. apply Hnd.
      apply in_or_app. left. exact Hin. }
    rewrite dict_set_fresh by exact Hfresh.
    rewrite IH.
    + rewrite <- app_assoc. reflexivity.
    + unfold keys. rewrite map_app. cbn [map fst]. rewrite <- app_assoc.
      exact Hnd.
Qed.

(** *** [get_stock_list] *)

Lemma stock_list_run (E : Env) (b : Backend) (input : GetStockListInput)
    (w : World) :
  xtdata E = Some b ->
  get_stock_list E input w
  = (Ok match get_stock_list_in_sector b (calls (ready E w)) (sector input) with
        | Ok None => a_list [no_stocks (sector input)]
        | Ok (Some sl) =>
            if (length (items sl) =? 0)%nat
            then a_list [no_stocks (sector input)]
            else if (50 <? length (items sl))%nat
                 then {| is_list := is_list sl;
                         items := firstn 50 (items sl) |}
                 else sl
        | Raise e => a_list [lit "错误: " ++ exn_str e]
        end,
     called (ready E w) (CGetStockListInSector (sector input))).
Proof.
  intros Hb. unfold get_stock_list, try_except, bind, invoke, ret, called.
  rewrite ensure_run, Hb.
  destruct (get_stock_list_in_sector b (calls (ready E w)) (sector input))
    as [[sl|]|e]; [|reflexivity|reflexivity].
  destruct (length (items sl) =? 0)%nat; [reflexivity|].
  destruct (50 <? length (items sl))%nat; reflexivity.
Qed.

Lemma stock_list_bounds (E : Env) (input : GetStockListInput) (w : World) :
  exists out, fst (get_stock_list E input w) = Ok out
              /\ (1 <= length (items out) <= 50)%nat.
Proof.
  destruct (xtdata E) as [b|] eqn:Hb.
  - rewrite (stock_list_run E b input w Hb). eexists. split; [reflexivity|].
    destruct (get_stock_list_in_sector b (calls (ready E w)) (sector input))
      as [[sl|]|e]; [|cbn; lia|cbn; lia].
    destruct (length (items sl) =? 0)%nat eqn:H0; [cbn; lia|].
    apply Nat.eqb_neq in H0.
    destruct (50 <? length (items sl))%nat eqn:H50.
    + apply Nat.ltb_lt in H50. cbn [items]. rewrite length_firstn. lia.
    + apply Nat.ltb_ge in H50. lia.
  - unfold get_stock_list, try_except, bind, ret. rewrite ensure_run, Hb.
    eexists. split; [reflexivity|cbn; lia].
Qed.

(** X1: [get_stock_list] asks the backend once, for the sector as given.
    Its result is never empty and has at most 50 entries: the first 50 of
    a non-empty backend sequence in their order (all of them when there are
    at most 50), of the same kind of sequence; the single message
    [未找到板块 <sector> 的股票列表] for an empty or [None] answer; the
    single entry [错误: <message>] when the backend raises. *)
Theorem stock_list_first_50 (E : Env) (b : Backend)
    (input : GetStockListInput) (w : World) :
  xtdata E = Some b ->
  (forall E' input' w',
      exists out, fst (get_stock_list E' input' w') = Ok out
                  /\ (1 <= length (items out) <= 50)%nat)
  /\ snd (get_stock_list E input w)
     = called (ready E w) (CGetStockListInSector (sector input))
  /\ (forall sl,
         get_stock_list_in_sector b (calls (ready E w)) (sector input)
         = Ok (Some sl) ->
         (items sl <> [] ->
          exists out, fst (get_stock_list E input w) = Ok out
                      /\ items out = firstn 50 (items sl)
                      /\ is_list out = is_list sl
                      /\ exists rest, items sl = items out ++ rest)
         /\ (items sl = [] ->
             fst (get_stock_list E input w)
             = Ok (a_list [lit "未找到板块 " ++ sector input
                           ++ lit " 的股票列表"])))
  /\ (get_stock_list_in_sector b (calls (ready E w)) (sector input) = Ok None ->
      fst (get_stock_list E input w)
      = Ok (a_list [lit "未找到板块 " ++ sector input ++ lit " 的股票列表"]))
  /\ (forall e,
         get_stock_list_in_sector b (calls (ready E w)) (sector input)
         = Raise e ->
         fst (get_stock_list E input w)
         = Ok (a_list [lit "错误: " ++ exn_str e])).
Proof.
  intros Hb.
  split; [intros; apply stock_list_bounds|].
  rewrite (stock_list_run E b input w Hb). cbn [fst snd].
  split; [reflexivity|].
  split.
  { intros sl Hsl. rewrite Hsl. split.
    - intros Hne. destruct (items sl) as [|c l] eqn:Hi; [contradiction|].
      cbn [length Nat.eqb].
      destruct (50 <? S (length l))%nat eqn:H50.
      + eexists. split; [reflexivity|]. cbn [items is_list].
        split; [reflexivity|]. split; [reflexivity|].
        exists (skipn 50 (c :: l)). symmetry. apply firstn_skipn.
      + exists sl. split; [reflexivity|]. rewrite Hi.
        apply Nat.ltb_ge in H50.
        rewrite firstn_all2 by (cbn [length]; lia).
        split; [reflexivity|]. split; [reflexivity|].
        exists []. now rewrite app_nil_r.
    - intros He. rewrite He. reflexivity. }
  split.
  { intros Hn. rewrite Hn. reflexivity. }
  { intros e He. rewrite He. reflexivity. }
Qed.

Lemma stock_list_first_50_witness :
  exists out,
    fst (get_stock_list
           (Mock.env_of (Some (fixed_backend None (Ok None)
              (Ok (Some {| is_list := false;
                           items := repeat (lit "600000.SH") 60 |}))
              (Ok None) (Ok None) [] None None)))
           {| sector := lit "上证A股" |} initial_world) = Ok out
    /\ items out = repeat (lit "600000.SH") 50
    /\ is_list out = false.
Proof.
  destruct (stock_list_first_50
              (Mock.env_of (Some (fixed_backend None (Ok None)
                 (Ok (Some {| is_list := false;
                              items := repeat (lit "600000.SH") 60 |}))
                 (Ok None) (Ok None) [] None None)))
              (fixed_backend None (Ok None)
                 (Ok (Some {| is_list := false;
                              items := repeat (lit "600000.SH") 60 |}))
                 (Ok None) (Ok None) [] None None)
              {| sector := lit "上证A股" |} initial_world eq_refl)
    as (_ & _ & H & _).
  destruct (H _ eq_refl) as [H1 _].
  destruct H1 as (out & Ho & Hi & Hl & _); [vm_compute; discriminate|].
  exists out. split; [exact Ho|]. split; [|exact Hl].
  rewrite Hi. vm_compute. reflexivity.
Defined.

(** *** [get_instrument_detail] *)

Lemma instrument_detail_run (E : Env) (b : Backend)
    (input : GetInstrumentDetailInput) (w : World) :
  xtdata E = Some b ->
  get_instrument_detail E input w
  = (Ok match get_instrument_detail_ b (calls (ready E w)) (code input)
                (iscomplete input) with
        | Ok None =>
            JDict [(lit "message",
                    JStr (lit "未找到股票代码 " ++ code input
                          ++ lit " 的详细信息"))]
        | Ok (Some d) =>
            JDict (fold_left
                     (fun acc kv => dict_set (fst kv) (detail_json (snd kv)) acc)
                     d [])
        | Raise e => error_payload (exn_str e)
        end,
     called (ready E w) (CGetInstrumentDetail (code input) (iscomplete input))).
Proof.
  intros Hb. unfold get_instrument_detail, try_except, bind, invoke, ret, called.
  rewrite ensure_run, Hb.
  destruct (get_instrument_detail_ b (calls (ready E w)) (code input)
              (iscomplete input)) as [[d|]|e]; reflexivity.
Qed.

(** X2: [get_instrument_detail] asks the backend once, with the code
    exactly as given and the flag as given.  A detail dict comes back with
    the same keys in the same order, every scalar value unchanged and every
    other value replaced by its [str]; a [None] answer gives
    [{message: 未找到股票代码 <code> 的详细信息}]; a backend exception gives
    [{error: <its message>}]. *)
Theorem instrument_detail_passthrough (E : Env) (b : Backend)
    (input : GetInstrumentDetailInput) (w : World) :
  xtdata E = Some b ->
  snd (get_instrument_detail E input w)
  = called (ready E w) (CGetInstrumentDetail (code input) (iscomplete input))
  /\ (forall d,
         get_instrument_detail_ b (calls (ready E w)) (code input)
           (iscomplete input) = Ok (Some d) ->
         NoDup (keys d) ->
         fst (get_instrument_detail E input w)
         = Ok (JDict (map (fun kv =>
                             (fst kv,
                              match snd kv with
                              | DScalar j => j
                              | DObject s => JStr s
                              end)) d)))
  /\ (get_instrument_detail_ b (calls (ready E w)) (code input)
        (iscomplete input) = Ok None ->
      fst (get_instrument_detail E input w)
      = Ok (JDict [(lit "message",
                    JStr (lit "未找到股票代码 " ++ code input
                          ++ lit " 的详细信息"))]))
  /\ (forall e,
         get_instrument_detail_ b (calls (ready E w)) (code input)
           (iscomplete input) = Raise e ->
         fst (get_instrument_detail E input w)
         = Ok (JDict [(lit "error", JStr (exn_str e))])).
Proof.
  intros Hb. rewrite (instrument_detail_run E b input w Hb). cbn [fst snd].
  split; [reflexivity|].
  split.
  { intros d Hd Hnd. rewrite Hd.
    rewrite (fold_dict_set_distinct fst (fun kv => detail_json (snd kv)) d [])
      by exact Hnd.
    reflexivity. }
  split.
  { intros Hn. rewrite Hn. reflexivity. }
  { intros e He. rewrite He. reflexivity. }
Qed.

Lemma instrument_detail_passthrough_witness :
  get_instrument_detail
    (Mock.env_of (Some (fixed_backend None (Ok None) (Ok None)
       (Ok (Some [(lit "InstrumentName", DScalar (JStr (lit "平安银行")));
                  (lit "ExpireDate", DObject (lit "99999999"));
                  (lit "PreClose", DScalar (JFloat (21 # 2)))]))
       (Ok None) [] None None)))
    {| code := lit " 000001.sz "; iscomplete := true |} initial_world
  = (Ok (JDict [(lit "InstrumentName", JStr (lit "平安银行"));
                (lit "ExpireDate", JStr (lit "99999999"));
                (lit "PreClose", JFloat (21 # 2))]),
     {| xtdc_initialized := true;
        calls := [CGetInstrumentDetail (lit " 000001.sz ") true] |}).
Proof.
  destruct (instrument_detail_passthrough
              (Mock.env_of (Some (fixed_backend None (Ok None) (Ok None)
                 (Ok (Some [(lit "InstrumentName",
                             DScalar (JStr (lit "平安银行")));
                            (lit "ExpireDate", DObject (lit "99999999"));
                            (lit "PreClose", DScalar (JFloat (21 # 2)))]))
                 (Ok None) [] None None)))
              (fixed_backend None (Ok None) (Ok None)
                 (Ok (Some [(lit "InstrumentName",
                             DScalar (JStr (lit "平安银行")));
                            (lit "ExpireDate", DObject (lit "99999999"));
                            (lit "PreClose", DScalar (JFloat (21 # 2)))]))
                 (Ok None) [] None None)
              {| code := lit " 000001.sz "; iscomplete := true |}
              initial_world eq_refl) as (Hw & Hd & _).
  rewrite (surjective_pairing (get_instrument_detail _ _ _)).
  rewrite Hw, (Hd _ eq_refl); [reflexivity|].
  vm_compute. repeat constructor; cbn; intuition discriminate.
Defined.

(** *** Without a backend *)

Lemma ready_without_start (E : Env) (w : World) :
  start_method E = None ->
  calls (ready E w) = calls w /\ xtdc_initialized (ready E w) = true.
Proof.
  intros Hs. unfold ready. destruct (xtdc_initialized w) eqn:Hw.
  - rewrite ensure_noop by exact Hw. split; [reflexivity|exact Hw].
  - rewrite ensure_unset by exact Hw. rewrite Hs. split; reflexivity.
Qed.

Lemma not_loaded_text :
  lit "错误: xtdata模块未正确加载" = lit "错误: " ++ no_xtdata.
Proof. vm_compute. reflexivity. Qed.

(** X3: when [xtdata] is [None], each of the eight handlers answers with
    its own "module not loaded" value ([xtdata模块未正确加载]) and nothing
    is called; the guard still marks the service as initialised. *)
Theorem no_backend_answers (E : Env) (w : World) :
  xtdata E = None ->
  (calls (ready E w) = calls w /\ xtdc_initialized (ready E w) = true)
  /\ (forall i, get_trading_dates E i w
                = (Ok [lit "错误: xtdata模块未正确加载"], ready E w))
  /\ (forall i, get_stock_list E i w
                = (Ok (a_list [lit "错误: xtdata模块未正确加载"]), ready E w))
  /\ (forall i, get_instrument_detail E i w
                = (Ok (JDict [(lit "error", JStr (lit "xtdata模块未正确加载"))]),
                   ready E w))
  /\ (forall i, get_history_market_data E i w
                = (Ok (JDict [(lit "error", JStr (lit "xtdata模块未正确加载"))]),
                   ready E w)
                /\ get_latest_market_data E i w
                   = get_history_market_data E i w
                /\ get_full_market_data E i w
                   = get_history_market_data E i w)
  /\ (forall i, create_chart_panel E i w
                = (Ok (JDict
                         [(lit "error", JStr (lit "xtdata模块未正确加载"));
                          (lit "env_info",
                           JDict (sys_info E
                                  ++ [(lit "has_apply_ui_panel_control",
                                       JBool false)]))]),
                   ready E w))
  /\ (forall i, create_custom_layout E i w
                = (Ok (JDict
                         [(lit "error", JStr (lit "xtdata模块未正确加载"));
                          (lit "env_info",
                           JDict (sys_info E
                                  ++ [(lit "has_apply_ui_panel_control",
                                       JBool false)]))]),
                   ready E w)).
Proof.
  intros Hb.
  split.
  { apply ready_without_start. unfold start_method. now rewrite Hb. }
  split.
  { intros i. unfold get_trading_dates, try_except, bind, ret.
    rewrite ensure_run, Hb, not_loaded_text. reflexivity. }
  split.
  { intros i. unfold get_stock_list, try_except, bind, ret.
    rewrite ensure_run, Hb, not_loaded_text. reflexivity. }
  split.
  { intros i. unfold get_instrument_detail, try_except, bind, ret.
    rewrite ensure_run, Hb. reflexivity. }
  split.
  { intros i.
    unfold get_history_market_data, get_latest_market_data,
      get_full_market_data, try_except, bind, ret.
    rewrite ensure_run, Hb. repeat split; reflexivity. }
  split.
  { intros i. unfold create_chart_panel, try_except, bind, ret.
    rewrite ensure_run, Hb. unfold env_info, has_panel_method.
    rewrite Hb. reflexivity. }
  { intros i. unfold create_custom_layout, try_except, bind, ret.
    rewrite ensure_run, Hb. unfold env_info, has_panel_method.
    rewrite Hb. reflexivity. }
Qed.

Lemma no_backend_answers_witness :
  get_trading_dates (Mock.env_of None) {| market := lit "SH" |} initial_world
  = (Ok [lit "错误: xtdata模块未正确加载"],
     {| xtdc_initialized := true; calls := [] |}).
Proof.
  destruct (no_backend_answers (Mock.env_of None) initial_world eq_refl)
    as (_ & H & _).
  rewrite H. reflexivity.
Defined.

(** *** Answers of [xtdata.get_market_data] *)

Lemma normalize_fields_distinct (stock_data : Dict (list Json)) :
  NoDup (keys stock_data) ->
  normalize_fields stock_data
  = map (fun fv => (fst fv, JList (snd fv))) stock_data.
Proof.
  intros Hnd. unfold normalize_fields.
  now rewrite (fold_dict_set_distinct fst (fun fv => JList (snd fv))).
Qed.

Lemma map_ext_Forall {A B} (f g : A -> B) (l : list A) :
  Forall (fun x => f x = g x) l -> map f l = map g l.
Proof.
  induction 1 as [|x l Hx _ IH]; [reflexivity|].
  cbn [map]. now rewrite Hx, IH.
Qed.

Lemma normalize_distinct (data : MarketData) :
  NoDup (keys data) ->
  Forall (fun cs => NoDup (keys (snd cs))) data ->
  normalize_market_data data
  = JDict (map (fun cs =>
                  (fst cs,
                   JDict (map (fun fv => (fst fv, JList (snd fv))) (snd cs))))
               data).
Proof.
  intros Hnd Hall. unfold normalize_market_data.
  rewrite (fold_dict_set_distinct fst
             (fun cs => JDict (normalize_fields (snd cs)))) by exact Hnd.
  cbn [app]. f_equal. apply map_ext_Forall.
  eapply Forall_impl; [|exact Hall].
  intros cs Hcs. cbn beta. now rewrite normalize_fields_distinct.
Qed.

(** X4: what the three market-data handlers make of the backend's answer,
    once there is a code to ask for.  A data dict is converted code by code
    and field by field, keeping codes, fields, their order and the values;
    a [None] answer gives [{error: <failure text>}]; an exception gives
    [{error: <failure text>: <its message>}].  The failure text is the
    handler's own: 获取历史行情数据失败, 获取最新行情数据失败,
    获取历史+最新行情数据失败. *)
Theorem market_data_answers (b : Backend) (failed : pystr)
    (fs cs : list pystr) (p : pystr) (st en : option pystr)
    (count : option Z) (w : World) :
  (forall data,
      get_market_data b (calls w) fs cs p st en count = Ok (Some data) ->
      NoDup (keys data) ->
      Forall (fun c => NoDup (keys (snd c))) data ->
      fst (fetch_market_data b failed fs cs p st en count w)
      = Ok (JDict (map (fun c =>
                          (fst c,
                           JDict (map (fun fv => (fst fv, JList (snd fv)))
                                      (snd c))))
                       data)))
  /\ (get_market_data b (calls w) fs cs p st en count = Ok None ->
      fst (fetch_market_data b failed fs cs p st en count w)
      = Ok (JDict [(lit "error", JStr failed)]))
  /\ (forall e,
         get_market_data b (calls w) fs cs p st en count = Raise e ->
         fst (fetch_market_data b failed fs cs p st en count w)
         = Ok (JDict [(lit "error", JStr (failed ++ lit ": " ++ exn_str e))]))
  /\ (forall E input w0,
         xtdata E = Some b ->
         (split_strip (codes input) <> [] ->
          get_history_market_data E input w0
          = fetch_market_data b (lit "获取历史行情数据失败")
              (parse_fields (fields input)) (split_strip (codes input))
              (period input) (Some (start_date input))
              (Some (end_date input)) None (ready E w0))
         /\ (filter looks_like_code (split_strip (codes input)) <> [] ->
             get_latest_market_data E input w0
             = fetch_market_data b (lit "获取最新行情数据失败")
                 default_fields
                 (filter looks_like_code (split_strip (codes input)))
                 (period input) None None (Some 1) (ready E w0)
             /\ get_full_market_data E input w0
                = fetch_market_data b (lit "获取历史+最新行情数据失败")
                    (parse_fields (fields input))
                    (filter looks_like_code (split_strip (codes input)))
                    (period input) (Some (start_date input))
                    (Some (end_date input)) (Some (-1)) (ready E w0))).
Proof.
  rewrite fetch_run. cbn [fst].
  split.
  { intros data Hd Hnd Hall. rewrite Hd. now rewrite normalize_distinct. }
  split.
  { intros Hn. rewrite Hn. reflexivity. }
  split.
  { intros e He. rewrite He. reflexivity. }
  intros E input w0 Hb. split.
  - intros Hne. rewrite (history_run E b input w0 Hb).
    apply is_empty_cons in Hne. now rewrite Hne.
  - intros Hne. rewrite (latest_run E b input w0 Hb), (full_run E b input w0 Hb).
    apply is_empty_cons in Hne. rewrite Hne. split; reflexivity.
Qed.

Lemma market_data_answers_witness :
  fst (get_history_market_data
         (Mock.env_of (Some (fixed_backend None (Ok None) (Ok None) (Ok None)
            (Raise (some_error "no connection")) [] None None)))
         {| codes := lit "000001.SZ"; period := lit "1d";
            start_date := []; end_date := []; fields := [] |}
         initial_world)
  = Ok (JDict [(lit "error",
                JStr (lit "获取历史行情数据失败: no connection"))]).
Proof.
  destruct (market_data_answers
              (fixed_backend None (Ok None) (Ok None) (Ok None)
                 (Raise (some_error "no connection")) [] None None)
              (lit "获取历史行情数据失败") default_fields [lit "000001.SZ"]
              (lit "1d") (Some []) (Some []) None initial_world)
    as (_ & _ & He & Hh).
  destruct (Hh (Mock.env_of (Some (fixed_backend None (Ok None) (Ok None)
                  (Ok None) (Raise (some_error "no connection")) [] None None)))
               {| codes := lit "000001.SZ"; period := lit "1d";
                  start_date := []; end_date := []; fields := [] |}
               initial_world eq_refl) as [Hrun _].
  rewrite Hrun by (vm_compute; discriminate).
  exact (He _ eq_refl).
Defined.

(** *** Comma-separated parameters *)

Lemma lstrip_no_lead (s : pystr) : no_lead (lstrip s) = true.
Proof.
  induction s as [|c s IH]; [reflexivity|].
  cbn [lstrip]. destruct (is_space c) eqn:Hc; [exact IH|].
  cbn [no_lead]. now rewrite Hc.
Qed.

Lemma lstrip_id (s : pystr) : no_lead s = true -> lstrip s = s.
Proof.
  destruct s as [|c s]; [reflexivity|]. cbn [no_lead lstrip].
  intros H. apply negb_true_iff in H. now rewrite H.
Qed.

Lemma lstrip_suffix (s : pystr) : exists sp, s = sp ++ lstrip s.
Proof.
  induction s as [|c s [sp IH]]; [exists []; reflexivity|].
  cbn [lstrip]. destruct (is_space c).
  - exists (c :: sp). cbn [app]. now rewrite <- IH.
  - exists []. reflexivity.
Qed.

Lemma no_lead_app (x y : pystr) :
  x <> [] -> no_lead (x ++ y) = no_lead x.
Proof. destruct x; [contradiction|reflexivity]. Qed.

Lemma strip_trimmed (s : pystr) : trimmed (strip s) = true.
Proof.
  unfold trimmed, strip. rewrite rev_involutive, lstrip_no_lead, andb_true_r.
  destruct (lstrip_suffix (rev (lstrip s))) as [sp Hsp].
  destruct (rev (lstrip (rev (lstrip s)))) as [|c r] eqn:Hr; [reflexivity|].
  assert (Ha : lstrip s = (c :: r) ++ rev sp).
  { rewrite <- Hr, <- rev_app_distr, <- Hsp. now rewrite rev_involutive. }
  pose proof (lstrip_no_lead s) as Hl. rewrite Ha in Hl.
  rewrite no_lead_app in Hl by discriminate. exact Hl.
Qed.

Lemma strip_id (s : pystr) : trimmed s = true -> strip s = s.
Proof.
  unfold trimmed, strip. intros H. apply andb_true_iff in H as [H1 H2].
  rewrite (lstrip_id s H1), (lstrip_id (rev s) H2). apply rev_involutive.
Qed.

Lemma split_not_nil (sep : char) (s : pystr) : split sep s <> [].
Proof.
  induction s as [|c s IH]; cbn [split]; [discriminate|].
  destruct (char_eqb c sep); [discriminate|].
  destruct (split sep s); [contradiction|discriminate].
Qed.

Lemma split_pieces (sep : char) (s : pystr) :
  Forall (fun p => contains sep p = false) (split sep s).
Proof.
  induction s as [|c s IH]; cbn [split].
  - repeat constructor.
  - destruct (char_eqb c sep) eqn:Hc.
    + constructor; [reflexivity|exact IH].
    + destruct (split sep s) as [|h t]; [repeat constructor|].
      * unfold contains. cbn [existsb]. unfold char_eqb in *.
        rewrite N.eqb_sym, Hc. reflexivity.
      * inversion IH as [|? ? Hh Ht]; subst. constructor; [|exact Ht].
        unfold contains in *. cbn [existsb]. unfold char_eqb in *.
        rewrite N.eqb_sym, Hc. exact Hh.
Qed.

Lemma split_app_sep (sep : char) (p s : pystr) :
  contains sep p = false ->
  split sep (p ++ sep :: s) = p :: split sep s.
Proof.
  induction p as [|c p IH]; intros Hp.
  - cbn [app split]. unfold char_eqb. now rewrite N.eqb_refl.
  - unfold contains in Hp. cbn [existsb] in Hp.
    apply orb_false_iff in Hp as [Hc Hp].
    cbn [app split]. unfold char_eqb in *. rewrite N.eqb_sym, Hc.
    now rewrite (IH Hp).
Qed.

Lemma split_single (sep : char) (p : pystr) :
  contains sep p = false -> split sep p = [p].
Proof.
  induction p as [|c p IH]; intros Hp; [reflexivity|].
  unfold contains in Hp. cbn [existsb] in Hp.
  apply orb_false_iff in Hp as [Hc Hp].
  cbn [split]. unfold char_eqb in *. rewrite N.eqb_sym, Hc.
  now rewrite (IH Hp).
Qed.

Lemma split_join (sep : char) (l : list pystr) :
  l <> [] -> Forall (fun p => contains sep p = false) l ->
  split sep (join [sep] l) = l.
Proof.
  induction l as [|p l IH]; intros Hne Hall; [contradiction|].
  inversion Hall as [|? ? Hp Hl]; subst.
  destruct l as [|q l].
  - cbn [join]. now apply split_single.
  - change (join [sep] (p :: q :: l)) with (p ++ sep :: join [sep] (q :: l)).
    rewrite split_app_sep by exact Hp. f_equal. apply IH; [discriminate|exact Hl].
Qed.

Lemma clean_token_spec (t : pystr) :
  clean_token t = true
  <-> t <> [] /\ contains comma t = false /\ trimmed t = true.
Proof.
  unfold clean_token. rewrite !andb_true_iff, negb_true_iff.
  destruct t; cbn [truthy]; intuition congruence.
Qed.

Lemma split_strip_clean (s : pystr) :
  Forall (fun t => clean_token t = true) (split_strip s).
Proof.
  apply Forall_forall. intros t Ht. apply split_strip_In in Ht.
  destruct Ht as [Hne [piece [Hin ->]]]. apply clean_token_spec.
  split; [exact Hne|]. split; [|apply strip_trimmed].
  rewrite contains_strip by reflexivity.
  pose proof (split_pieces comma s) as Hall.
  rewrite Forall_forall in Hall. now apply Hall.
Qed.

Lemma split_strip_join (l : list pystr) :
  Forall (fun t => clean_token t = true) l ->
  split_strip (join [comma] l) = l.
Proof.
  intros Hall. destruct l as [|p l]; [reflexivity|].
  unfold split_strip. rewrite split_join.
  - induction Hall as [|t l' Ht _ IH]; [reflexivity|].
    apply clean_token_spec in Ht as (Hne & _ & Htr).
    cbn [map filter]. rewrite (strip_id t Htr), IH.
    destruct t; [contradiction|reflexivity].
  - discriminate.
  - eapply Forall_impl; [|exact Hall].
    intros t Ht. now apply clean_token_spec in Ht.
Qed.

(** X5: how a comma-separated parameter is read ([codes], [fields],
    [params], [param_names]).  Every token obtained is non-empty, has no
    comma and no whitespace at either end.  Joining such tokens with commas
    and reading the text again gives the same tokens, so reading is
    unchanged by this round trip; this is how the default codes, joined by
    the dispatcher, reach the panel handlers. *)
Theorem comma_tokens_round_trip (s : pystr) (l : list pystr) :
  Forall (fun t => t <> [] /\ contains comma t = false
                   /\ no_lead t = true /\ no_lead (rev t) = true)
         (split_strip s)
  /\ (Forall (fun t => clean_token t = true) l ->
      split_strip (join (lit ",") l) = l)
  /\ split_strip (join (lit ",") (split_strip s)) = split_strip s
  /\ split_strip [] = [] /\ split_strip (lit " , ,") = [].
Proof.
  split.
  { eapply Forall_impl; [|apply split_strip_clean].
    intros t Ht. apply clean_token_spec in Ht as (H1 & H2 & H3).
    unfold trimmed in H3. apply andb_true_iff in H3. tauto. }
  split; [apply split_strip_join|].
  split; [apply split_strip_join, split_strip_clean|].
  split; vm_compute; reflexivity.
Qed.

(** *** What reaches [xtdata.get_market_data] *)

Lemma parse_fields_clean (s : pystr) :
  parse_fields s <> []
  /\ Forall (fun t => clean_token t = true) (parse_fields s).
Proof.
  unfold parse_fields.
  destruct (is_empty (if truthy s then split_strip s else [])) eqn:He.
  - split; [discriminate|]. vm_compute. repeat constructor.
  - apply is_empty_cons in He. split; [exact He|].
    destruct (truthy s); [apply split_strip_clean|constructor].
Qed.

Lemma in_called (w : World) (c0 c : Call) :
  In c (calls (called w c0)) -> In c (calls w) \/ c = c0.
Proof.
  unfold called. cbn [calls]. intros H.
  apply in_app_or in H as [H|[H|[]]]; [now left|now right].
Qed.

Lemma data_call_inj (fs cs fs' cs' : list pystr) (p p' : pystr)
    (st en st' en' : option pystr) (n n' : option Z) :
  CGetMarketData fs cs p st en n = CGetMarketData fs' cs' p' st' en' n' ->
  fs = fs' /\ cs = cs' /\ p = p' /\ n = n'.
Proof.
  intros H.
  pose (proj := fun c => match c with
                         | CGetMarketData a b c _ _ d => (a, b, c, d)
                         | _ => ([], [], [], None)
                         end).
  assert (Hp := f_equal proj H). cbn in Hp.
  repeat split; congruence.
Qed.

(** X6: the three market-data handlers never ask the backend for an empty
    list of codes or an empty list of fields: every [get_market_data] call
    they add carries at least one code and one field, each a non-empty
    trimmed token without a comma, and the period as given. *)
Theorem market_data_calls_well_formed (E : Env) (input : GetMarketDataInput)
    (w : World) (fs cs : list pystr) (p : pystr) (st en : option pystr)
    (n : option Z) :
  In (CGetMarketData fs cs p st en n)
     (calls (snd (get_history_market_data E input w))
      ++ calls (snd (get_latest_market_data E input w))
      ++ calls (snd (get_full_market_data E input w))) ->
  In (CGetMarketData fs cs p st en n) (calls w)
  \/ (fs <> [] /\ cs <> [] /\ p = period input
      /\ Forall (fun t => clean_token t = true) fs
      /\ Forall (fun t => clean_token t = true) cs
      /\ (forall t, In t cs -> In t (split_strip (codes input)))).
Proof.
  assert (Hready : In (CGetMarketData fs cs p st en n) (calls (ready E w)) ->
                   In (CGetMarketData fs cs p st en n) (calls w)).
  { intros H. apply ready_calls in H as [H|H]; [exact H|discriminate H]. }
  assert (Hdef : Forall (fun t => clean_token t = true) default_fields).
  { vm_compute. repeat constructor. }
  intros Hin.
  destruct (xtdata E) as [b|] eqn:Hb.
  - rewrite (history_run E b input w Hb), (latest_run E b input w Hb),
      (full_run E b input w Hb) in Hin.
    destruct (parse_fields_clean (fields input)) as [Hfne Hfcl].
    pose proof (split_strip_clean (codes input)) as Hccl.
    assert (Hvcl : Forall (fun t => clean_token t = true)
                     (filter looks_like_code (split_strip (codes input)))).
    { apply Forall_forall. intros t Ht. apply filter_In in Ht as [Ht _].
      rewrite Forall_forall in Hccl. now apply Hccl. }
    apply in_app_or in Hin as [Hin|Hin]; [|apply in_app_or in Hin as [Hin|Hin]].
    + destruct (is_empty (split_strip (codes input))) eqn:He;
        [left; apply Hready; exact Hin|].
      rewrite fetch_run in Hin. cbn [snd] in Hin.
      apply in_called in Hin as [Hin|Heq]; [left; now apply Hready|].
      apply data_call_inj in Heq as (-> & -> & -> & _). right.
      apply is_empty_cons in He. repeat split; auto.
    + destruct (is_empty (filter looks_like_code (split_strip (codes input))))
        eqn:He; [left; apply Hready; exact Hin|].
      rewrite fetch_run in Hin. cbn [snd] in Hin.
      apply in_called in Hin as [Hin|Heq]; [left; now apply Hready|].
      apply data_call_inj in Heq as (-> & -> & -> & _). right.
      apply is_empty_cons in He. repeat split; auto; try discriminate.
      intros t Ht. now apply filter_In in Ht.
    + destruct (is_empty (filter looks_like_code (split_strip (codes input))))
        eqn:He; [left; apply Hready; exact Hin|].
      rewrite fetch_run in Hin. cbn [snd] in Hin.
      apply in_called in Hin as [Hin|Heq]; [left; now apply Hready|].
      apply data_call_inj in Heq as (-> & -> & -> & _). right.
      apply is_empty_cons in He. repeat split; auto.
      intros t Ht. now apply filter_In in Ht.
  - left. apply Hready.
    unfold get_history_market_data, get_latest_market_data,
      get_full_market_data, try_except, bind, ret in Hin.
    rewrite ensure_run, Hb in Hin. cbn [snd] in Hin.
    apply in_app_or in Hin as [Hin|Hin]; [exact Hin|].
    apply in_app_or in Hin as [Hin|Hin]; exact Hin.
Qed.

Lemma market_data_calls_well_formed_witness :
  [lit "close"] <> [] /\ [lit "000001.SZ"; lit "BAD"] <> [].
Proof.
  destruct (market_data_calls_well_formed Mock.env
              {| codes := lit " 000001.SZ ,,BAD"; period := lit "5m";
                 start_date := []; end_date := []; fields := lit "close," |}
              initial_world [lit "close"] [lit "000001.SZ"; lit "BAD"]
              (lit "5m") (Some []) (Some []) None
              ltac:(vm_compute; left; reflexivity))
    as [H|(H1 & H2 & _)]; [destruct H|].
  split; assumption.
Defined.

(** *** Indicator parameters of [create_chart_panel] *)

From Stdlib Require DecimalZ DecimalPos.

Lemma to_int_not_nil (z : Z) :
  Z.to_int z <> Decimal.Pos Decimal.Nil /\ Z.to_int z <> Decimal.Neg Decimal.Nil.
Proof.
  destruct z as [|p|p]; cbn; split; try discriminate; intros H;
    injection H as H; now apply DecimalPos.Unsigned.to_uint_nonnil in H.
Qed.

Lemma byte_of_inj (a b : ascii) : byte_of a = byte_of b -> a = b.
Proof.
  unfold byte_of. intros H.
  rewrite <- (ascii_N_embedding a), <- (ascii_N_embedding b). now rewrite H.
Qed.

Lemma map_byte_of_inj (l l' : list ascii) :
  map byte_of l = map byte_of l' -> l = l'.
Proof.
  revert l'. induction l as [|a l IH]; intros [|b l'] H; try discriminate.
  - reflexivity.
  - cbn [map] in H. injection H as Hab Hl.
    apply byte_of_inj in Hab. subst. f_equal. now apply IH.
Qed.

Lemma of_Z_inj (z z' : Z) : of_Z z = of_Z z' -> z = z'.
Proof.
  unfold of_Z. intros H. apply map_byte_of_inj in H.
  apply (f_equal string_of_list_ascii) in H.
  rewrite !string_of_list_ascii_of_string in H.
  apply (f_equal NilZero.int_of_string) in H.
  destruct (to_int_not_nil z) as [Hz1 Hz2].
  destruct (to_int_not_nil z') as [Hz1' Hz2'].
  rewrite !NilZero.isi in H by assumption.
  injection H as H. now apply DecimalZ.to_int_inj.
Qed.

Lemma ma_key_inj (i j : nat) : ma_key i = ma_key j -> i = j.
Proof.
  unfold ma_key, of_nat. intros H. apply app_inv_head in H.
  apply of_Z_inj in H. lia.
Qed.

Lemma NoDup_map_injective {A B} (f : A -> B) (l : list A) :
  (forall x y, f x = f y -> x = y) -> NoDup l -> NoDup (map f l).
Proof.
  intros Hf. induction 1 as [|x l Hx _ IH]; cbn [map]; constructor; [|exact IH].
  intros Hin. apply in_map_iff in Hin as (y & Hy & Hin).
  apply Hf in Hy. subst. contradiction.
Qed.

Lemma ma_keys_NoDup (i k : nat) : NoDup (map ma_key (seq i k)).
Proof.
  apply NoDup_map_injective; [|apply seq_NoDup].
  intros x y. apply ma_key_inj.
Qed.

Lemma ma_params_spec (ps : list ParamVal) (i : nat) (acc : Dict ParamVal) :
  (forall j, In (ma_key j) (keys acc) -> (j < i)%nat) ->
  ma_params i ps acc
  = acc ++ combine (map ma_key (seq i (length ps))) ps.
Proof.
  revert i acc. induction ps as [|p ps IH]; intros i acc Hacc.
  - cbn. now rewrite app_nil_r.
  - cbn [ma_params length seq map combine].
    fold (ma_key i). rewrite dict_set_fresh.
    + rewrite IH.
      * now rewrite <- app_assoc.
      * intros j Hj. unfold keys in Hj. rewrite map_app in Hj.
        apply in_app_or in Hj as [Hj|[Hj|[]]].
        -- apply Hacc in Hj. lia.
        -- cbn [fst] in Hj. apply ma_key_inj in Hj. lia.
    + intros Hin. apply Hacc in Hin. lia.
Qed.

Lemma parse_indicator_params_ok (E : Env) (toks : list pystr)
    (vs : list ParamVal) :
  parse_indicator_params E toks = Ok vs <-> Forall2 (chart_param E) toks vs.
Proof.
  revert vs. induction toks as [|t toks IH]; intros vs; cbn [parse_indicator_params].
  - split.
    + intros H. apply Ok_inj in H. subst. constructor.
    + intros H. inversion H. reflexivity.
  - unfold chart_param at 1.
    destruct (py_isdigit E t) eqn:Hd.
    + destruct (py_int E t) as [z|e] eqn:Hi.
      * destruct (parse_indicator_params E toks) as [vs'|e] eqn:Hp.
        -- split.
           ++ intros H. apply Ok_inj in H. subst. constructor.
              ** unfold chart_param. rewrite Hd. eauto.
              ** now apply IH.
           ++ intros H. inversion H as [|? v ? vs0 Hv Hrest]; subst.
              unfold chart_param in Hv. rewrite Hd in Hv.
              destruct Hv as (z' & Hz & ->). rewrite Hi in Hz.
              apply Ok_inj in Hz. subst.
              apply IH in Hrest. apply Ok_inj in Hrest. now subst.
        -- split; [discriminate|].
           intros H. inversion H as [|? v ? vs0 Hv Hrest]; subst.
           apply IH in Hrest. discriminate.
      * split; [discriminate|].
        intros H. inversion H as [|? v ? vs0 Hv Hrest]; subst.
        unfold chart_param in Hv. rewrite Hd in Hv.
        destruct Hv as (z' & Hz & _). rewrite Hi in Hz. discriminate.
    + destruct (parse_indicator_params E toks) as [vs'|e] eqn:Hp.
      * split.
        -- intros H. apply Ok_inj in H. subst. constructor.
           ++ unfold chart_param. now rewrite Hd.
           ++ now apply IH.
        -- intros H. inversion H as [|? v ? vs0 Hv Hrest]; subst.
           unfold chart_param in Hv. rewrite Hd in Hv. subst.
           apply IH in Hrest. apply Ok_inj in Hrest. now subst.
      * split; [discriminate|].
        intros H. inversion H as [|? v ? vs0 Hv Hrest]; subst.
        apply IH in Hrest. discriminate.
Qed.

Lemma parse_indicator_params_raise (E : Env) (toks : list pystr) (e : exn) :
  parse_indicator_params E toks = Raise e ->
  exists t, In t toks /\ py_isdigit E t = true /\ py_int E t = Raise e.
Proof.
  induction toks as [|t toks IH]; cbn [parse_indicator_params]; [discriminate|].
  destruct (py_isdigit E t) eqn:Hd.
  - destruct (py_int E t) as [z|e'] eqn:Hi.
    + destruct (parse_indicator_params E toks) as [vs|e'']; [discriminate|].
      intros H. injection H as ->.
      destruct (IH eq_refl) as (t' & Hin & H1 & H2).
      exists t'. split; [now right|]. now split.
    + intros H. injection H as ->. exists t. split; [now left|]. now split.
  - destruct (parse_indicator_params E toks) as [vs|e'']; [discriminate|].
    intros H. injection H as ->.
    destruct (IH eq_refl) as (t' & Hin & H1 & H2).
    exists t'. split; [now right|]. now split.
Qed.

(** X7: the indicator configuration of [create_chart_panel].  Every
    token of [params] that is not all digits stays a string and every
    all-digit token becomes the integer [int] makes of it, so there are as
    many parameters as tokens.  For [ma] the [i]-th parameter (from 1) is
    stored under the key [n<i>], all keys distinct; for [macd] and [kdj]
    the first three parameters get the fixed names and the others are
    ignored, and fewer than three give no parameters at all; any other
    indicator is passed on under its own name without parameters. *)
Theorem chart_indicator_parameters (E : Env) (toks : list pystr)
    (ps : list ParamVal) (ind : pystr) :
  (parse_indicator_params E toks = Ok ps <-> Forall2 (chart_param E) toks ps)
  /\ chart_indicator_config (lit "ma") ps
     = {| ic_name := lit "ma";
          ic_params := combine (map ma_key (seq 1 (length ps))) ps |}
  /\ NoDup (map ma_key (seq 1 (length ps)))
  /\ (forall name,
         name = lit "macd" \/ name = lit "kdj" ->
         ((length ps < 3)%nat ->
          chart_indicator_config name ps
          = {| ic_name := name; ic_params := [] |})
         /\ (forall p0 p1 p2 rest,
                ps = p0 :: p1 :: p2 :: rest ->
                chart_indicator_config name ps
                = {| ic_name := name;
                     ic_params :=
                       if PyStr.eqb name (lit "macd")
                       then [(lit "short", p0); (lit "long", p1);
                             (lit "mid", p2)]
                       else [(lit "n", p0); (lit "m1", p1);
                             (lit "m2", p2)] |}))
  /\ (ind <> lit "ma" -> ind <> lit "macd" -> ind <> lit "kdj" ->
      chart_indicator_config ind ps = {| ic_name := ind; ic_params := [] |}).
Proof.
  split; [apply parse_indicator_params_ok|].
  split.
  { unfold chart_indicator_config.
    rewrite if_true by (vm_compute; reflexivity).
    rewrite ma_params_spec; [reflexivity|]. intros j []. }
  split; [apply ma_keys_NoDup|].
  split.
  { intros name [-> | ->]; unfold chart_indicator_config;
      repeat first [ rewrite if_true by (vm_compute; reflexivity)
                   | rewrite if_false by (vm_compute; reflexivity) ].
    - split.
      + intros Hlt. destruct ps as [|? [|? [|? ?]]]; cbn [length] in Hlt;
          try reflexivity; lia.
      + intros p0 p1 p2 rest ->. reflexivity.
    - split.
      + intros Hlt. destruct ps as [|? [|? [|? ?]]]; cbn [length] in Hlt;
          try reflexivity; lia.
      + intros p0 p1 p2 rest ->. reflexivity. }
  { intros H1 H2 H3. unfold chart_indicator_config.
    apply eqb_neq in H1, H2, H3. rewrite H1, H2, H3. reflexivity. }
Qed.

Lemma chart_no_codes_run (E : Env) (b : Backend)
    (input : CreateChartPanelInput) (w : World) :
  xtdata E = Some b -> split_strip (cp_codes input) = [] ->
  create_chart_panel E input w = (Ok (no_codes_error E), ready E w).
Proof.
  intros Hb Hc. unfold create_chart_panel, try_except, bind, ret.
  rewrite ensure_run, Hb, Hc. reflexivity.
Qed.

Lemma layout_no_codes_run (E : Env) (b : Backend)
    (input : CreateCustomLayoutInput) (w : World) :
  xtdata E = Some b -> split_strip (cl_codes input) = [] ->
  create_custom_layout E input w = (Ok (no_codes_error E), ready E w).
Proof.
  intros Hb Hc. unfold create_custom_layout, try_except, bind, ret.
  rewrite ensure_run, Hb, Hc. reflexivity.
Qed.

(** X8: the two ways [create_chart_panel] gives up before any panel is
    built.  A [codes] text without a single token gives
    [{error: 未提供有效的股票代码, env_info}] (and so does
    [create_custom_layout]).  A parameter token that is all digits but
    refused by [int] gives [{error: <message of int>, debug_info:
    {traceback}}], and that is the only way the parameters can fail.  In
    both cases nothing is called on the backend beyond the startup
    attempt of the guard. *)
Theorem chart_panel_gives_up (E : Env) (b : Backend) (w : World) :
  xtdata E = Some b ->
  (forall input,
      split_strip (cp_codes input) = [] ->
      create_chart_panel E input w = (Ok (no_codes_error E), ready E w))
  /\ (forall input,
         split_strip (cl_codes input) = [] ->
         create_custom_layout E input w = (Ok (no_codes_error E), ready E w))
  /\ (forall input e,
         split_strip (cp_codes input) <> [] ->
         parse_indicator_params E (split_strip (params input)) = Raise e ->
         create_chart_panel E input w = (Ok (outer_error E e), ready E w)
         /\ exists t, In t (split_strip (params input))
                      /\ py_isdigit E t = true /\ py_int E t = Raise e)
  /\ (forall c, In c (calls (ready E w)) -> In c (calls w) \/ c = CStartXtdata).
Proof.
  intros Hb.
  split; [intros input; exact (chart_no_codes_run E b input w Hb)|].
  split; [intros input; exact (layout_no_codes_run E b input w Hb)|].
  split; [|apply ready_calls].
  intros input e Hne Hp. split; [|now apply parse_indicator_params_raise].
  unfold create_chart_panel, try_except, bind, lift, ret.
  rewrite ensure_run, Hb. apply is_empty_cons in Hne. rewrite Hne, Hp.
  reflexivity.
Qed.

Lemma chart_panel_gives_up_witness :
  create_chart_panel Mock.env
    {| cp_codes := lit " , "; cp_period := lit "1d";
       indicators := lit "ma"; params := lit "5" |} initial_world
  = (Ok (no_codes_error Mock.env),
     {| xtdc_initialized := true; calls := [] |}).
Proof.
  destruct (chart_panel_gives_up Mock.env Mock.MockXtdata initial_world eq_refl)
    as (H & _).
  rewrite H; [reflexivity | vm_compute; reflexivity].
Defined.

(** *** Parameters of [create_custom_layout] *)

Lemma zip_params_fold (names : list pystr) (values : list ParamVal)
    (i n : nat) (acc : Dict ParamVal) :
  (i + length values = n)%nat ->
  zip_params i n names values acc
  = fold_left (fun d nv => dict_set (fst nv) (snd nv) d)
      (combine names values) acc.
Proof.
  revert values i acc. induction names as [|name names IH];
    intros values i acc Hn; [reflexivity|].
  destruct values as [|value values]; [reflexivity|].
  cbn [zip_params combine fold_left fst snd]. cbn [length] in Hn.
  replace (i <? n)%nat with true by (symmetry; apply Nat.ltb_lt; lia).
  apply IH. lia.
Qed.

Lemma combine_keys_NoDup {V} (names : list pystr) (values : list V) :
  NoDup (firstn (length values) names) ->
  NoDup (map fst (combine names values)).
Proof.
  revert values. induction names as [|name names IH]; intros values Hnd.
  - constructor.
  - destruct values as [|value values]; [constructor|].
    cbn [length firstn] in Hnd. inversion Hnd as [|? ? Hnot Hrest]; subst.
    cbn [combine map fst]. constructor; [|now apply IH].
    intros Hin. apply Hnot. apply in_map_iff in Hin as ([k v] & Hk & Hin).
    cbn [fst] in Hk. subst k.
    clear -Hin. revert values Hin.
    induction names as [|n' names IH]; intros values Hin; [destruct Hin|].
    destruct values as [|v' values]; [destruct Hin|].
    cbn [combine length firstn] in *. destruct Hin as [Heq|Hin].
    + injection Heq as -> _. now left.
    + right. now apply (IH values).
Qed.

(** X9: how [create_custom_layout] pairs names with values.  The index
    test of the loop never excludes a pair: the parameters are exactly the
    pairs of [zip(param_names, param_values)], stored one after another.
    Names beyond the number of values and values beyond the number of
    names are dropped; when the names in use are distinct the mapping
    lists them in order with their values. *)
Theorem layout_parameters_zip (names : list pystr) (values : list ParamVal) :
  layout_indicator_params names values
  = fold_left (fun d nv => dict_set (fst nv) (snd nv) d)
      (combine names values) []
  /\ (NoDup (firstn (length values) names) ->
      layout_indicator_params names values = combine names values
      /\ length (layout_indicator_params names values)
         = Nat.min (length names) (length values))
  /\ layout_indicator_params names [] = []
  /\ layout_indicator_params [] values = [].
Proof.
  assert (Hfold : layout_indicator_params names values
                  = fold_left (fun d nv => dict_set (fst nv) (snd nv) d)
                      (combine names values) []).
  { unfold layout_indicator_params. now apply zip_params_fold. }
  split; [exact Hfold|].
  split.
  { intros Hnd. rewrite Hfold.
    rewrite (fold_dict_set_distinct fst snd (combine names values) []).
    - cbn [app]. rewrite <- (map_id (combine names values)) at 2.
      split.
      + apply map_ext. intros [k v]. reflexivity.
      + rewrite length_map. apply length_combine.
    - cbn [keys map app]. now apply combine_keys_NoDup. }
  split.
  { unfold layout_indicator_params. destruct names; reflexivity. }
  { reflexivity. }
Qed.

Lemma coerce_value_returns (E : Env) (value : pystr) :
  (forall s e, py_int E s = Raise e -> exn_class e = ValueError) ->
  (forall s e, py_float E s = Raise e -> exn_class e = ValueError) ->
  exists v, coerce_value E value = Ok v
            /\ (forall s, v = PStr s -> s = strip value)
            /\ (forall z, v = PInt z -> py_int E (strip value) = Ok z)
            /\ (forall q, v = PFloat q -> py_float E (strip value) = Ok q).
Proof.
  intros Hci Hcf. unfold coerce_value.
  destruct (contains dot value).
  - destruct (py_float E (strip value)) as [q|e] eqn:Hf.
    + eexists. split; [reflexivity|].
      repeat split; intros ? H; try discriminate H. now injection H as <-.
    + unfold is_class. rewrite (Hcf _ _ Hf). eexists. split; [reflexivity|].
      repeat split; intros ? H; try discriminate H. now injection H as <-.
  - destruct (py_int E (strip value)) as [z|e] eqn:Hi.
    + eexists. split; [reflexivity|].
      repeat split; intros ? H; try discriminate H. now injection H as <-.
    + unfold is_class. rewrite (Hci _ _ Hi). eexists. split; [reflexivity|].
      repeat split; intros ? H; try discriminate H. now injection H as <-.
Qed.

Lemma parse_param_values_returns (E : Env) (pieces : list pystr) :
  (forall s e, py_int E s = Raise e -> exn_class e = ValueError) ->
  (forall s e, py_float E s = Raise e -> exn_class e = ValueError) ->
  exists vs,
    parse_param_values E pieces = Ok vs
    /\ Forall2 (fun piece v => coerce_value E piece = Ok v)
         (filter (fun v => truthy (strip v)) pieces) vs.
Proof.
  intros Hci Hcf. induction pieces as [|piece pieces (vs & Hvs & Hall)].
  - exists []. split; [reflexivity|constructor].
  - cbn [parse_param_values filter].
    destruct (truthy (strip piece)).
    + destruct (coerce_value_returns E piece Hci Hcf) as (v & Hv & _).
      rewrite Hv, Hvs. exists (v :: vs). split; [reflexivity|].
      constructor; assumption.
    + exists vs. split; assumption.
Qed.

(** X10: reading [param_values] never fails, given that [int] and
    [float] raise nothing but [ValueError] on text: blank pieces are
    skipped, every other piece yields exactly one value, and a piece that
    does not parse is kept as its trimmed text.  So [create_custom_layout],
    with a backend and at least one stock code, always reaches the panels
    and reports [success: true], whatever [param_names] and
    [param_values] hold. *)
Theorem custom_layout_always_succeeds (E : Env) (b : Backend)
    (input : CreateCustomLayoutInput) (w : World) :
  (forall s e, py_int E s = Raise e -> exn_class e = ValueError) ->
  (forall s e, py_float E s = Raise e -> exn_class e = ValueError) ->
  xtdata E = Some b ->
  split_strip (cl_codes input) <> [] ->
  exists vs j w',
    parse_param_values E (split comma (param_values input)) = Ok vs
    /\ Forall2 (fun piece v => coerce_value E piece = Ok v)
         (value_pieces (param_values input)) vs
    /\ length vs = length (value_pieces (param_values input))
    /\ create_custom_layout E input w = (Ok j, w')
    /\ json_field "success" j = Some (JBool true)
    /\ json_field "error" j = None.
Proof.
  intros Hci Hcf Hb Hne.
  destruct (parse_param_values_returns E
              (split comma (param_values input)) Hci Hcf) as (vs & Hvs & Hall).
  destruct (custom_layout_run E b input vs w Hb Hne Hvs)
    as (j & mr & mr' & w1 & w2 & Hrun & Hs & _).
  exists vs, j, w2.
  split; [exact Hvs|]. split; [exact Hall|].
  split; [symmetry; exact (Forall2_length Hall)|].
  split; [exact Hrun|]. split; [exact Hs|].
  revert Hrun. unfold create_custom_layout, try_except, bind, lift, ret.
  rewrite ensure_run, Hb. apply is_empty_cons in Hne. rewrite Hne, Hvs.
  destruct (show_panels E b (cl_period input) _ (split_strip (cl_codes input))
              (ready E w)) as [[shown|e] w3] eqn:Hshow.
  - intros H. apply (f_equal fst) in H. cbn [fst] in H. apply Ok_inj in H.
    rewrite <- H. reflexivity.
  - exfalso.
    destruct (show_panels_run E b (cl_period input)
                {| ic_name := indicator_name input;
                   ic_params :=
                     layout_indicator_params
                       (split_strip (param_names input)) vs |}
                (split_strip (cl_codes input)) (ready E w))
      as (? & ? & ? & ? & _ & Hs' & _).
    rewrite Hshow in Hs'. discriminate Hs'.
Qed.

Lemma custom_layout_always_succeeds_witness :
  exists vs j w',
    parse_param_values Mock.env (split comma (lit "5,, x y ,1.2.3")) = Ok vs
    /\ length vs = 3%nat
    /\ create_custom_layout Mock.env
         {| cl_codes := lit "000001.SZ"; cl_period := lit "1d";
            indicator_name := lit "boll"; param_names := lit "n";
            param_values := lit "5,, x y ,1.2.3" |} initial_world
       = (Ok j, w')
    /\ json_field "success" j = Some (JBool true).
Proof.
  destruct (custom_layout_always_succeeds Mock.env Mock.MockXtdata
              {| cl_codes := lit "000001.SZ"; cl_period := lit "1d";
                 indicator_name := lit "boll"; param_names := lit "n";
                 param_values := lit "5,, x y ,1.2.3" |} initial_world
              mock_int_class mock_float_class eq_refl
              ltac:(vm_compute; discriminate))
    as (vs & j & w' & H1 & _ & H3 & H4 & H5 & _).
  exists vs, j, w'. repeat split; assumption.
Defined.

(** *** Applying the panels *)



Lemma primary_run (E : Env) (b : Backend) (panels : list Panel) (w : World)
    (f : History -> list Panel -> Result pystr) :
  panel_method b primary_method = Some f ->
  apply_panel_control E b panels w
  = (Ok [(primary_method,
          match f (calls w) panels with
          | Ok r => result_entry E r w
          | Raise e => error_entry e
          end)],
     called w (CPanelMethod primary_method panels)).
Proof.
  intros Hf. unfold apply_panel_control. rewrite Hf.
  unfold try_except, bind, ret. rewrite timed_call_run.
  destruct (f (calls w) panels); reflexivity.
Qed.






(** *** Once initialised *)

Lemma settled_ret {A} (a : A) : settled (ret a).
Proof. intros w r w' Hw H. unfold ret in H. injection H as _ <-. now split. Qed.

Lemma settled_raise {A} (e : exn) : settled (@raise A e).
Proof. intros w r w' Hw H. unfold raise in H. injection H as _ <-. now split. Qed.

Lemma settled_lift {A} (x : Result A) : settled (lift x).
Proof. intros w r w' Hw H. unfold lift in H. injection H as _ <-. now split. Qed.

Lemma settled_bind {A B} (m : M A) (k : A -> M B) :
  settled m -> (forall a, settled (k a)) -> settled (bind m k).
Proof.
  intros Hm Hk w r w' Hw H. unfold bind in H.
  destruct (m w) as [[a|e] w1] eqn:Hmw.
  - destruct (Hm w _ w1 Hw Hmw) as [H1 H2].
    destruct (Hk a w1 r w' H1 H) as [H3 H4]. split; [exact H3|congruence].
  - injection H as _ <-. exact (Hm w _ w1 Hw Hmw).
Qed.

Lemma settled_try {A} (body : M A) (handler : exn -> M A) :
  settled body -> (forall e, settled (handler e)) ->
  settled (try_except body handler).
Proof.
  intros Hm Hk w r w' Hw H. unfold try_except in H.
  destruct (body w) as [[a|e] w1] eqn:Hmw.
  - injection H as _ <-. exact (Hm w _ w1 Hw Hmw).
  - destruct (Hm w _ w1 Hw Hmw) as [H1 H2].
    destruct (Hk e w1 r w' H1 H) as [H3 H4]. split; [exact H3|congruence].
Qed.

Lemma settled_invoke {A} (c : Call) (answer : History -> Result A) :
  is_start c = false -> settled (invoke c answer).
Proof.
  intros Hc w r w' Hw H. unfold invoke in H. injection H as _ <-.
  cbn [xtdc_initialized calls]. split; [exact Hw|].
  rewrite starts_app. unfold starts at 2. cbn [filter]. rewrite Hc.
  cbn [length]. lia.
Qed.

Lemma settled_ensure (E : Env) : settled (ensure_xtdc_initialized E).
Proof.
  intros w r w' Hw H. rewrite ensure_noop in H by exact Hw.
  injection H as _ <-. now split.
Qed.

Lemma settled_timed_call (E : Env) (name : pystr)
    (f : History -> list Panel -> Result pystr) (panels : list Panel) :
  settled (timed_call E name f panels).
Proof.
  intros w r w' Hw H. rewrite timed_call_run in H. injection H as _ <-.
  unfold called. cbn [xtdc_initialized calls]. split; [exact Hw|].
  rewrite starts_app. unfold starts at 2. cbn [filter is_start length]. lia.
Qed.

Ltac settle :=
  repeat first
    [ apply settled_ret
    | apply settled_raise
    | apply settled_lift
    | apply settled_ensure
    | apply settled_timed_call
    | apply settled_invoke; reflexivity
    | apply settled_bind; [|intros]
    | apply settled_try; [|intros]
    | match goal with
      | |- settled (match ?x with _ => _ end) => destruct x
      end
    | progress cbv zeta ].

Lemma settled_try_methods (E : Env) (b : Backend) (panels : list Panel)
    (names : list pystr) (mr : Dict Json) :
  settled (try_methods E b panels names mr).
Proof.
  revert mr. induction names as [|n names IH]; intros mr; cbn [try_methods].
  - apply settled_ret.
  - destruct (panel_method b n); [|apply IH].
    apply settled_bind.
    + settle.
    + intros [entry|err]; [apply settled_ret|apply IH].
Qed.

Lemma settled_apply_panel_control (E : Env) (b : Backend)
    (panels : list Panel) :
  settled (apply_panel_control E b panels).
Proof.
  unfold apply_panel_control.
  destruct (panel_method b primary_method); [settle|].
  apply settled_try_methods.
Qed.

Lemma settled_fetch (b : Backend) (failed : pystr) (fs cs : list pystr)
    (p : pystr) (st en : option pystr) (n : option Z) :
  settled (fetch_market_data b failed fs cs p st en n).
Proof. unfold fetch_market_data. settle. Qed.

Lemma settled_get_stock_list (E : Env) (i : GetStockListInput) :
  settled (get_stock_list E i).
Proof. unfold get_stock_list. settle. Qed.

Lemma settled_handle_call_tool (E : Env) (name : pystr)
    (arguments : Arguments) :
  settled (handle_call_tool E name arguments).
Proof.
  assert (Hcodes : settled (codes_or_default E arguments)).
  { unfold codes_or_default, resolve_default_codes,
      resolve_default_codes_with.
    destruct (arg arguments "codes") as [v|];
      [destruct (val_truthy v)|]; settle; apply settled_get_stock_list. }
  unfold handle_call_tool.
  repeat match goal with
         | |- settled (if ?c then _ else _) => destruct c
         end.
  all: settle;
    try exact Hcodes;
    try apply settled_get_stock_list;
    try apply settled_fetch;
    try apply settled_apply_panel_control.
Qed.

(** X13: once the service is initialised it stays so: no tool call, with
    whatever name and arguments and whatever the backend answers, resets
    [xtdc_initialized] or invokes [start_xtdata] again; and so for any
    sequence of tool calls. *)
Theorem initialised_for_good (E : Env) (requests : list (pystr * Arguments))
    (w : World) :
  xtdc_initialized w = true ->
  xtdc_initialized (serve E requests w) = true
  /\ starts (calls (serve E requests w)) = starts (calls w)
  /\ forall name arguments,
      xtdc_initialized (snd (handle_call_tool E name arguments w)) = true
      /\ starts (calls (snd (handle_call_tool E name arguments w)))
         = starts (calls w).
Proof.
  intros Hw.
  assert (Hone : forall w0 name arguments,
             xtdc_initialized w0 = true ->
             xtdc_initialized (snd (handle_call_tool E name arguments w0)) = true
             /\ starts (calls (snd (handle_call_tool E name arguments w0)))
                = starts (calls w0)).
  { intros w0 name arguments Hw0.
    exact (settled_handle_call_tool E name arguments w0 _ _ Hw0
             (surjective_pairing _)). }
  split; [|split; [|intros; now apply Hone]].
  - revert w Hw. induction requests as [|[name arguments] rest IH];
      intros w Hw; [exact Hw|].
    cbn [serve]. apply IH. now apply Hone.
  - revert w Hw. induction requests as [|[name arguments] rest IH];
      intros w Hw; [reflexivity|].
    cbn [serve]. destruct (Hone w name arguments Hw) as [H1 H2].
    rewrite IH by exact H1. exact H2.
Qed.

Lemma initialised_for_good_witness :
  starts (calls (serve (Mock.env_of (Some working_start))
                   [(lit "get_stock_list", None);
                    (lit "create_chart_panel", None);
                    (lit "nope", None)]
                   {| xtdc_initialized := true; calls := [CStartXtdata] |}))
  = 1%nat.
Proof.
  destruct (initialised_for_good (Mock.env_of (Some working_start))
              [(lit "get_stock_list", None);
               (lit "create_chart_panel", None);
               (lit "nope", None)]
              {| xtdc_initialized := true; calls := [CStartXtdata] |} eq_refl)
    as (_ & H & _).
  rewrite H. reflexivity.
Defined.

(** *** Declared defaults *)

Lemma dict_get_app {V} (k : pystr) (d d' : Dict V) :
  dict_get k (d ++ d')
  = match dict_get k d with
    | Some v => Some v
    | None => dict_get k d'
    end.
Proof.
  induction d as [|[k0 v0] d IH]; [reflexivity|].
  cbn [app dict_get]. destruct (PyStr.eqb k k0); [reflexivity|exact IH].
Qed.

Lemma arg_with_arg (arguments : Arguments) (k k' : string) (v : PyVal) :
  arg (with_arg arguments k v) k'
  = match arg arguments k' with
    | Some x => Some x
    | None => if PyStr.eqb (lit k') (lit k) then Some v else None
    end.
Proof.
  unfold arg, with_arg. destruct arguments as [d|].
  - rewrite dict_get_app. reflexivity.
  - reflexivity.
Qed.

Lemma arg_with_same (arguments : Arguments) (k : string) (v : PyVal) :
  arg arguments k = None -> arg (with_arg arguments k v) k = Some v.
Proof. intros H. now rewrite arg_with_arg, H, eqb_refl. Qed.

Lemma arg_with_other (arguments : Arguments) (k k' : string) (v : PyVal) :
  PyStr.eqb (lit k') (lit k) = false ->
  arg (with_arg arguments k v) k' = arg arguments k'.
Proof.
  intros H. rewrite arg_with_arg, H. now destruct (arg arguments k').
Qed.

Lemma arg_get_with_same (arguments : Arguments) (k d : string) :
  arg arguments k = None ->
  arg_get (with_arg arguments k (VStr (lit d))) k d = arg_get arguments k d.
Proof.
  intros H. unfold arg_get. now rewrite arg_with_same, H.
Qed.

Lemma arg_get_with_other (arguments : Arguments) (k k' d : string) (v : PyVal) :
  PyStr.eqb (lit k') (lit k) = false ->
  arg_get (with_arg arguments k v) k' d = arg_get arguments k' d.
Proof. intros H. unfold arg_get. now rewrite arg_with_other. Qed.

Lemma codes_or_default_with_other (E : Env) (arguments : Arguments)
    (k : string) (v : PyVal) :
  PyStr.eqb (lit "codes") (lit k) = false ->
  codes_or_default E (with_arg arguments k v) = codes_or_default E arguments.
Proof. intros H. unfold codes_or_default. now rewrite arg_with_other. Qed.

Ltac same_default Harg :=
  dispatch;
  repeat first
    [ rewrite (arg_get_with_same _ _ _ Harg)
    | rewrite arg_get_with_other by (vm_compute; reflexivity)
    | rewrite arg_with_other by (vm_compute; reflexivity)
    | rewrite codes_or_default_with_other by (vm_compute; reflexivity) ];
  reflexivity.

(** X14: the defaults the registry advertises are the ones the
    dispatcher applies.  For every string property [handle_list_tools]
    declares with a default, a call that leaves the property out behaves
    exactly as the call that passes the declared default: same result,
    same calls on the backend. *)
Theorem declared_defaults_applied (E : Env) (tool key default : string)
    (arguments : Arguments) (w : World) :
  In (tool, key, default) declared_defaults ->
  arg arguments key = None ->
  handle_call_tool E (lit tool) (with_arg arguments key (VStr (lit default))) w
  = handle_call_tool E (lit tool) arguments w
  /\ registry_defaults
     = map (fun d => (lit (fst (fst d)), lit (snd (fst d)), lit (snd d)))
           declared_defaults.
Proof.
  intros Hin Harg. split; [|vm_compute; reflexivity].
  apply (f_equal (fun m => m w)).
  cbn [In declared_defaults] in Hin.
  repeat (destruct Hin as [Hin|Hin];
          [injection Hin as <- <- <-; same_default Harg|]).
  destruct Hin.
Qed.

Lemma declared_defaults_applied_witness :
  handle_call_tool Mock.env (lit "get_latest_market_data")
    (Some [(lit "codes", VStr (lit "000001.SZ")); (lit "period", VStr (lit "1d"))])
    initial_world
  = handle_call_tool Mock.env (lit "get_latest_market_data")
      (Some [(lit "codes", VStr (lit "000001.SZ"))]) initial_world.
Proof.
  destruct (declared_defaults_applied Mock.env "get_latest_market_data"
              "period" "1d" (Some [(lit "codes", VStr (lit "000001.SZ"))])
              initial_world
              ltac:(cbn; tauto) eq_refl) as [H _].
  exact H.
Defined.

(** *** Default codes through [get_stock_list] *)

Lemma firstn_firstn_5_50 {A} (l : list A) : firstn 5 (firstn 50 l) = firstn 5 l.
Proof. rewrite firstn_firstn. reflexivity. Qed.

(** X15: the default codes as the two modules of the lookup compose.
    [get_stock_list] turns a failing or empty lookup into a one-entry list
    holding a message, and the dispatcher takes any non-empty list for
    stock codes.  So the default [codes] is: the first five codes joined by
    commas when the backend returns a non-empty list; the literal
    ["000001.SZ,600519.SH"] only when it returns a non-empty sequence that
    is not a list; the text [未找到板块 沪深A股 的股票列表] when it returns
    nothing; and [错误: <message>] when it raises.  The lookup is one
    backend call, for the sector 沪深A股. *)
Theorem default_codes_through_lookup (E : Env) (b : Backend) (w : World) :
  xtdata E = Some b ->
  exists d,
    resolve_default_codes E w
    = (Ok d, called (ready E w) (CGetStockListInSector (lit "沪深A股")))
    /\ (forall sl,
           get_stock_list_in_sector b (calls (ready E w)) (lit "沪深A股")
           = Ok (Some sl) ->
           (items sl <> [] -> is_list sl = true ->
            d = join (lit ",") (firstn 5 (items sl)))
           /\ (items sl <> [] -> is_list sl = false ->
               d = lit "000001.SZ,600519.SH")
           /\ (items sl = [] -> d = lit "未找到板块 沪深A股 的股票列表"))
    /\ (get_stock_list_in_sector b (calls (ready E w)) (lit "沪深A股")
        = Ok None ->
        d = lit "未找到板块 沪深A股 的股票列表")
    /\ (forall e,
           get_stock_list_in_sector b (calls (ready E w)) (lit "沪深A股")
           = Raise e ->
           d = lit "错误: " ++ exn_str e).
Proof.
  intros Hb.
  assert (Hmsg : join [comma] (firstn 5 [no_stocks (lit "沪深A股")])
                 = lit "未找到板块 沪深A股 的股票列表").
  { vm_compute. reflexivity. }
  unfold resolve_default_codes, resolve_default_codes_with, try_except,
    bind, ret.
  rewrite (stock_list_run E b _ w Hb). cbn [sector].
  eexists. split; [reflexivity|].
  destruct (get_stock_list_in_sector b (calls (ready E w)) (lit "沪深A股"))
    as [[sl|]|e].
  - split; [|split; [discriminate|intros ? H; discriminate H]].
    intros sl' H. apply Ok_inj in H. injection H as <-.
    destruct (items sl) as [|c l] eqn:Hi.
    + cbn [length Nat.eqb]. split; [contradiction|].
      split; [contradiction|]. intros _. exact Hmsg.
    + cbn [length Nat.eqb].
      assert (Hgen : forall its,
                 its <> [] ->
                 default_codes_of {| is_list := is_list sl; items := its |}
                 = if is_list sl then join [comma] (firstn 5 its)
                   else default_codes_literal).
      { intros its Hne. unfold default_codes_of. cbn [is_list items].
        destruct its; [contradiction|]. cbn [length].
        destruct (is_list sl); reflexivity. }
      destruct (50 <? S (length l))%nat.
      * rewrite Hgen by discriminate. rewrite firstn_firstn_5_50.
        split; [intros _ ->; reflexivity|].
        split; [intros _ ->; reflexivity|discriminate].
      * replace sl with {| is_list := is_list sl; items := c :: l |}
          by (destruct sl; cbn in *; now subst).
        cbn [is_list]. rewrite Hgen by discriminate.
        split; [intros _ ->; reflexivity|].
        split; [intros _ ->; reflexivity|discriminate].
  - split; [intros ? H; discriminate H|].
    split; [intros _; exact Hmsg|intros ? H; discriminate H].
  - split; [intros ? H; discriminate H|].
    split; [discriminate|].
    intros e' H. injection H as <-. reflexivity.
Qed.

Lemma default_codes_through_lookup_witness :
  fst (resolve_default_codes
         (Mock.env_of (Some (fixed_backend None (Ok None)
            (Raise (some_error "timeout")) (Ok None) (Ok None) [] None None)))
         initial_world)
  = Ok (lit "错误: timeout").
Proof.
  destruct (default_codes_through_lookup
              (Mock.env_of (Some (fixed_backend None (Ok None)
                 (Raise (some_error "timeout")) (Ok None) (Ok None) []
                 None None)))
              (fixed_backend None (Ok None) (Raise (some_error "timeout"))
                 (Ok None) (Ok None) [] None None)
              initial_world eq_refl) as (d & Hd & _ & _ & He).
  rewrite Hd. cbn [fst]. rewrite (He _ eq_refl). vm_compute. reflexivity.
Defined.

(** *** Failures of [get_trading_dates] *)




(** *** When the dispatcher raises *)











(** *** The fallback loop, call by call *)

Lemma try_methods_calls (E : Env) (b : Backend) (panels : list Panel)
    (names : list pystr) (mr : Dict Json) (w : World) :
  exists k mr' w',
    try_methods E b panels names mr w = (Ok mr', w')
    /\ xtdc_initialized w' = xtdc_initialized w
    /\ calls w'
       = calls w
         ++ map (fun n => CPanelMethod n panels)
              (firstn k (filter (present b) names)).
Proof.
  revert mr w. induction names as [|n names IH]; intros mr w.
  - exists 0%nat, (dict_set (lit "no_method_found") (JBool true) mr), w.
    cbn [try_methods filter firstn map]. rewrite app_nil_r.
    repeat split.
  - cbn [filter]. unfold present at 1.
    destruct (panel_method b n) as [f|] eqn:Hf.
    + rewrite (try_methods_step E b panels n names mr f w Hf).
      destruct (f (calls w) panels) as [r|e].
      * exists 1%nat. do 2 eexists. split; [reflexivity|].
        cbn [firstn map called calls xtdc_initialized].
        split; reflexivity.
      * destruct (IH (dict_set n (error_entry e) mr)
                     (called w (CPanelMethod n panels)))
          as (k & mr' & w' & Hrun & Hflag & Hcalls).
        exists (S k), mr', w'. split; [exact Hrun|].
        split; [exact Hflag|]. rewrite Hcalls.
        cbn [called calls firstn map]. rewrite <- app_assoc. reflexivity.
    + cbn [try_methods]. rewrite Hf. apply IH.
Qed.

(** X18: the calls a panel handler makes to apply its panels.  Whatever
    the backend has and however its methods answer, the panel-control
    calls are: the primary method (apply_ui_panel_control) alone when it
    exists; otherwise some first few of the fallback names that exist, in
    the order of [possible_methods] (apply_panel_control, create_panel,
    show_panel, display_panel), each at most once.  Every one of these
    calls gets the same full list of panels; applying panels never raises
    and never touches the initialisation flag. *)
Theorem panel_control_calls (E : Env) (b : Backend) (panels : list Panel)
    (w : World) :
  exists attempted mr w',
    apply_panel_control E b panels w = (Ok mr, w')
    /\ xtdc_initialized w' = xtdc_initialized w
    /\ calls w' = calls w ++ map (fun n => CPanelMethod n panels) attempted
    /\ (present b primary_method = true -> attempted = [primary_method])
    /\ (present b primary_method = false ->
        exists k,
          attempted = firstn k (filter (present b) possible_methods))
    /\ (length attempted <= 4)%nat.
Proof.
  unfold present at 1 2.
  destruct (panel_method b primary_method) as [f|] eqn:Hf.
  - exists [primary_method]. do 2 eexists.
    split; [exact (primary_run E b panels w f Hf)|].
    cbn [called calls xtdc_initialized map length].
    repeat split; try discriminate; lia.
  - destruct (try_methods_calls E b panels possible_methods
                (dict_set primary_method
                   (JDict [(lit "exists", JBool false)]) []) w)
      as (k & mr & w' & Hrun & Hflag & Hcalls).
    exists (firstn k (filter (present b) possible_methods)), mr, w'.
    split; [unfold apply_panel_control; rewrite Hf; exact Hrun|].
    split; [exact Hflag|]. split; [exact Hcalls|].
    split; [discriminate|]. split; [intros _; exists k; reflexivity|].
    rewrite length_firstn.
    pose proof (filter_length_le (present b) possible_methods) as Hle.
    change (length possible_methods) with 4%nat in Hle. lia.
Qed.
